(** * flask-trivia: the request handlers of [backend/flaskr/__init__.py]

    A shallow embedding of the route handlers and of the four error
    handlers, over an explicit model of the relational store, together with
    the properties of the handlers stated in the specification. *)

From Stdlib Require Import ZArith List Lia Sorting.Sorted.
From stdpp Require Import gmap strings list fin_maps pretty.
Import ListNotations.

Set Warnings "-register-all".

Open Scope string_scope.
Open Scope Z_scope.

(** ** JSON values

    What [request.get_json()] hands to a handler and what [jsonify] sends
    back.  Numbers are the integers; an object is a dictionary with string
    keys. *)

Inductive json : Type :=
| JNull
| JBool (b : bool)
| JInt (z : Z)
| JStr (s : string)
| JList (l : list json)
| JObj (d : gmap string json).

(** A dictionary literal [{k1: v1, ...}]. *)
Definition obj (l : list (string * json)) : json := JObj (list_to_map l).

(** Reading a member of a response body. *)
Definition field (k : string) (v : json) : option json :=
  match v with
  | JObj d => d !! k
  | _ => None
  end.

(** Python's truth value of a decoded JSON value: [None], [False], [0],
    [""], [[]] and [{}] are false, everything else is true. *)
Definition truthy (v : json) : bool :=
  match v with
  | JNull => false
  | JBool b => b
  | JInt z => negb (z =? 0)
  | JStr s => negb (String.eqb s "")
  | JList l => match l with [] => false | _ :: _ => true end
  | JObj d => negb (size d =? 0)%nat
  end.

(** [v == s] for a string literal [s]: only a string compares equal. *)
Definition py_eq_str (v : json) (s : string) : bool :=
  match v with
  | JStr t => String.eqb t s
  | _ => false
  end.

(** [i == v] for an integer [i]: an integer compares equal to the same
    integer and, [bool] being a subclass of [int], to [True] when it is 1
    and to [False] when it is 0. *)
Definition py_eq_int (i : Z) (v : json) : bool :=
  match v with
  | JInt z => i =? z
  | JBool b => i =? (if b then 1 else 0)
  | _ => false
  end.

(** ** Outcomes

    A handler returns, leaves through [abort(code)], or raises another
    exception.  Only three codes are ever passed to [abort]. *)

Inductive http_error : Type := NotFound | Conflict | Unprocessable.

Inductive exn : Type := AttributeError | KeyError | TypeError | StoreError.

Inductive result (A : Type) : Type :=
| Ret (a : A)
| Abort (e : http_error)
| Raise (x : exn).

Arguments Ret {A} a.
Arguments Abort {A} e.
Arguments Raise {A} x.

(** ** The store *)

(** Modelled from the spec: the class [Question] of [models.py], which is
    not among the sources; section 3 of the specification gives its
    fields. *)
Record Question : Type := mkQuestion {
  q_id : Z;
  q_question : string;
  q_answer : string;
  q_category : Z;
  q_difficulty : Z
}.

(** Modelled from the spec: the class [Category] of [models.py], with the
    fields of section 3 of the specification. *)
Record Category : Type := mkCategory {
  c_id : Z;
  c_type : string
}.

(** The rows of the two tables in the order in which the store returns them,
    and the next identifier the store assigns to a question. *)
Record store : Type := mkStore {
  questions : list Question;
  categories : list Category;
  next_id : Z
}.

(** Modelled from the spec: [Question.format] of [models.py], the record
    reduced to its externally exposed fields. *)
Definition Question_format (q : Question) : json :=
  obj [("id", JInt (q_id q));
       ("question", JStr (q_question q));
       ("answer", JStr (q_answer q));
       ("category", JInt (q_category q));
       ("difficulty", JInt (q_difficulty q))].

(** Modelled from the spec: [Category.format] of [models.py]. *)
Definition Category_format (c : Category) : json :=
  obj [("id", JInt (c_id c)); ("type", JStr (c_type c))].

(** The store is an external collaborator.  How it compares a column with
    a request value of the column's JSON type is fixed below; what it does
    with any other value (a string bound to an integer column, a list bound
    to a text column, ...), how it matches an [ILIKE] pattern, which
    strings it can be sent and which rows it takes are left to the driver:
    every theorem holds for every driver. *)
Class Driver : Type := {
  (** whether the driver can send the string as a parameter of a
      statement (it raises on a string that holds the character NUL) *)
  binds_text : string -> bool;
  (** whether the store takes the row of a question, an answer, a category
      and a difficulty (it rejects an integer out of the range of the
      column, and a string that cannot be sent) *)
  accepts_row : string -> string -> Z -> Z -> bool;
  (** a primary key looked up with a value that is not an integer *)
  foreign_key : json -> result (Z -> bool);
  (** an integer column compared with a value that is not an integer *)
  foreign_int : json -> result (Z -> bool);
  (** a text column compared with a value that is not a string *)
  foreign_text : json -> result (string -> bool);
  (** [column ILIKE '%{}%'.format(term)] *)
  ilike_term : json -> result (string -> bool);
  (** the row stored for constructor arguments that are not two strings
      and two integers; [None] when the insertion fails *)
  foreign_row : json -> json -> json -> json
                -> option (string * string * Z * Z)
}.

(** ** The handler monad

    The store is threaded through, and stays as it is when the handler
    leaves by [abort] or by an exception: every change is committed at
    once. *)

Definition M (A : Type) : Type := store -> result A * store.

Definition ret {A} (a : A) : M A := fun s => (Ret a, s).

Definition bind {A B} (m : M A) (k : A -> M B) : M B :=
  fun s =>
    match m s with
    | (Ret a, s') => k a s'
    | (Abort e, s') => (Abort e, s')
    | (Raise x, s') => (Raise x, s')
    end.

Definition abort {A} (e : http_error) : M A := fun s => (Abort e, s).

Definition lift {A} (r : result A) : M A := fun s => (r, s).

(** [try: m  except: h] with a bare [except], which catches [abort] too. *)
Definition try_except {A} (m : M A) (h : M A) : M A :=
  fun s =>
    match m s with
    | (Ret a, s') => (Ret a, s')
    | (_, s') => h s'
    end.

(** [if c: m] *)
Definition when (c : bool) (m : M unit) : M unit :=
  if c then m else ret tt.

Declare Scope handler_scope.
Delimit Scope handler_scope with handler.

Notation "x <- m ;; k" := (bind m (fun x => k))
  (at level 100, m at next level, right associativity) : handler_scope.
Notation "m ;;; k" := (bind m (fun _ => k))
  (at level 100, right associativity) : handler_scope.

Open Scope handler_scope.

Definition result_map {A B} (f : A -> B) (r : result A) : result B :=
  match r with
  | Ret a => Ret (f a)
  | Abort e => Abort e
  | Raise x => Raise x
  end.

(** [for x in l: if f(x)], stopping at the first exception. *)
Fixpoint filterM {A} (f : A -> result bool) (l : list A)
  : result (list A) :=
  match l with
  | [] => Ret []
  | x :: t =>
      match f x with
      | Ret b =>
          match filterM f t with
          | Ret t' => Ret (if b then x :: t' else t')
          | Abort e => Abort e
          | Raise e => Raise e
          end
      | Abort e => Abort e
      | Raise e => Raise e
      end
  end.

(** ** Python operations on request values *)

(** [d.get(k)]: [None] for a missing key; only a dictionary has [get]. *)
Definition dict_get (v : json) (k : string) : result json :=
  match v with
  | JObj d => Ret (default JNull (d !! k))
  | _ => Raise AttributeError
  end.

(** [d[k]] for a string key [k]. *)
Definition subscript (v : json) (k : string) : result json :=
  match v with
  | JObj d =>
      match d !! k with
      | Some x => Ret x
      | None => Raise KeyError
      end
  | _ => Raise TypeError
  end.

(** [i in c] for an integer [i]: a list is searched with [==], a dictionary
    has string keys only, nothing else can hold an integer. *)
Definition py_in (i : Z) (c : json) : result bool :=
  match c with
  | JList l => Ret (existsb (py_eq_int i) l)
  | JObj _ => Ret false
  | _ => Raise TypeError
  end.

(** [l[start:stop]] on a list, with Python's treatment of negative and of
    out-of-range bounds. *)
Definition clamp_index (len i : Z) : Z :=
  if i <? 0 then Z.max 0 (i + len) else Z.min i len.

Definition py_slice {A} (l : list A) (start stop : Z) : list A :=
  let len := Z.of_nat (length l) in
  let lo := clamp_index len start in
  let hi := clamp_index len stop in
  firstn (Z.to_nat (hi - lo)) (skipn (Z.to_nat lo) l).

(** [randint(a, b)]: some integer between [a] and [b], both included; which
    one is decided by the state of the generator. *)
Definition randint (seed : nat) (a b : Z) : Z :=
  a + Z.of_nat seed mod (b - a + 1).

(** [l[i]] for an index within range. *)
Definition py_index (l : list json) (i : Z) : json :=
  nth (Z.to_nat i) l JNull.

(** ** Queries *)

(** A [Query] is not run until it is iterated or sliced, and is true in a
    boolean context whatever it would return; [.all()] gives a list. *)
Inductive selection : Type :=
| Query (run : store -> result (list Question))
| Rows (l : list Question).

Definition selection_truthy (sel : selection) : bool :=
  match sel with
  | Query _ => true
  | Rows l => match l with [] => false | _ :: _ => true end
  end.

Definition iterate (sel : selection) : M (list Question) :=
  fun s =>
    match sel with
    | Query run => (run s, s)
    | Rows l => (Ret l, s)
    end.

Definition is_empty {A} (l : list A) : bool :=
  match l with
  | [] => true
  | _ :: _ => false
  end.

Fixpoint insert_by_id (q : Question) (l : list Question) : list Question :=
  match l with
  | [] => [q]
  | r :: t => if q_id q <? q_id r then q :: l else r :: insert_by_id q t
  end.

(** [order_by(Question.id)] *)
Definition order_by_id (l : list Question) : list Question :=
  fold_right insert_by_id [] l.

Definition Question_query_all : M (list Question) :=
  fun s => (Ret (questions s), s).

Definition Category_query_all : M (list Category) :=
  fun s => (Ret (categories s), s).

(** [Question.query.get(id)] for the integer of the URL. *)
Definition Question_query_get (i : Z) : M (option Question) :=
  fun s => (Ret (find (fun q => q_id q =? i) (questions s)), s).

(** [Category.query.get(id)] for the integer of the URL. *)
Definition Category_query_get (i : Z) : M (option Category) :=
  fun s => (Ret (find (fun c => c_id c =? i) (categories s)), s).

(** Modelled from the spec: [Question.delete] of [models.py], which removes
    the row of that identifier from the store. *)
Definition Question_delete (q : Question) : M unit :=
  fun s =>
    (Ret tt,
     mkStore (List.filter (fun r => negb (q_id r =? q_id q)) (questions s))
             (categories s) (next_id s)).

(** ** Responses and the four error handlers *)

Record response : Type := mkResponse {
  status : Z;
  body : json
}.

Definition error_envelope (code : Z) (message : string) : json :=
  obj [("success", JBool false);
       ("error", JInt code);
       ("message", JStr message)].

Definition not_found : response :=
  mkResponse 404 (error_envelope 404 "Not found").

Definition resource_already_exists : response :=
  mkResponse 409 (error_envelope 409 "Question exists").

Definition not_processable : response :=
  mkResponse 422 (error_envelope 422 "Check input values").

Definition fatal_error : response :=
  mkResponse 500 (error_envelope 500 "Oops! Internal server error.").

(** What the application sends for an outcome of a handler: the pair
    [jsonify(...), status], the envelope of the code given to [abort], or
    the envelope of the internal error for an exception nobody caught. *)
Definition respond (r : result (Z * json)) : response :=
  match r with
  | Ret (code, b) => mkResponse code b
  | Abort NotFound => not_found
  | Abort Conflict => resource_already_exists
  | Abort Unprocessable => not_processable
  | Raise _ => fatal_error
  end.

Definition serve (h : M (Z * json)) (s : store) : response * store :=
  let (r, s') := h s in (respond r, s').

Definition QUESTIONS_PER_PAGE : Z := 10.

(** ** GET /questions

    [page_arg] is [request.args.get('page', type=int)]: absent when the
    parameter is missing or is not an integer. *)
Definition get_questions (page_arg : option Z) : M (Z * json) :=
  let page := default 1 page_arg in
  let start := (page - 1) * QUESTIONS_PER_PAGE in
  let end_ := start + QUESTIONS_PER_PAGE in
  selection <- Question_query_all ;;
  categories_selection <- Category_query_all ;;
  when (is_empty selection) (abort NotFound) ;;;
  let questions := map Question_format (py_slice selection start end_) in
  let categories := map Category_format categories_selection in
  when (is_empty questions) (abort NotFound) ;;;
  ret (200, obj [("success", JBool true);
                 ("questions", JList questions);
                 ("count", JInt (Z.of_nat (length selection)));
                 ("categories", JList categories);
                 ("current_category", JNull)]).

(** ** GET /categories *)
Definition get_categories : M (Z * json) :=
  selection <- Category_query_all ;;
  when (is_empty selection) (abort NotFound) ;;;
  let categories := map Category_format selection in
  ret (200, obj [("success", JBool true);
                 ("count", JInt (Z.of_nat (length categories)));
                 ("categories", JList categories)]).

(** [x.attr] on the result of a lookup: [None] has no attributes. *)
Definition attr {A B} (x : option A) (f : A -> B) : M B :=
  match x with
  | Some a => ret (f a)
  | None => lift (Raise AttributeError)
  end.

(** ** DELETE /questions/<int:id> *)
Definition delete_question (id : Z) : M (Z * json) :=
  question <- Question_query_get id ;;
  match question with
  | None => abort NotFound
  | Some q =>
      Question_delete q ;;;
      selection <- Question_query_all ;;
      when (is_empty selection) (abort NotFound) ;;;
      let questions := map Question_format selection in
      when (is_empty questions) (abort NotFound) ;;;
      ret (200, obj [("success", JBool true);
                     ("questions", JList questions);
                     ("count", JInt (Z.of_nat (length questions)))])
  end.

Section Handlers.

Context {D : Driver}.

Definition bind_key (v : json) : result (Z -> bool) :=
  match v with
  | JInt z => Ret (Z.eqb z)
  | _ => foreign_key v
  end.

Definition bind_int (v : json) : result (Z -> bool) :=
  match v with
  | JInt z => Ret (Z.eqb z)
  | _ => foreign_int v
  end.

Definition bind_text (v : json) : result (string -> bool) :=
  match v with
  | JStr s => Ret (String.eqb s)
  | _ => foreign_text v
  end.

(** The values of a new row: question, answer, category, difficulty;
    [None] when the insertion fails. *)
Definition row_values (question answer difficulty category : json)
  : option (string * string * Z * Z) :=
  match question, answer, difficulty, category with
  | JStr q, JStr a, JInt d, JInt c =>
      if accepts_row q a c d then Some (q, a, c, d) else None
  | _, _, _, _ => foreign_row question answer difficulty category
  end.

(** [Question.query.filter_by(category=v)], also written
    [Question.query.filter(Question.category == v)]. *)
Definition filter_by_category (v : json) : selection :=
  Query (fun s =>
    result_map
      (fun p => List.filter (fun q => p (q_category q)) (questions s))
      (bind_int v)).

(** [Question.query.order_by(Question.id).filter(
       Question.question.ilike('%{}%'.format(term)))] *)
Definition search_questions (term : json) : selection :=
  Query (fun s =>
    result_map
      (fun p => List.filter (fun q => p (q_question q))
                            (order_by_id (questions s)))
      (ilike_term term)).

(** Whether the driver can send the value as the text to look up. *)
Definition sendable (v : json) : bool :=
  match v with
  | JStr t => binds_text t
  | _ => true
  end.

(** [Question.query.filter_by(question=v).all()].  The driver raises on a
    string that it cannot send.  Such a string is the text of no row, the
    texts of the rows having been sent when they were inserted: the lookup
    of a text that a row has does not raise. *)
Definition Question_query_filter_by_question_all (v : json)
  : M (list Question) :=
  fun s =>
    (match bind_text v with
     | Ret p =>
         let rows := List.filter (fun q => p (q_question q)) (questions s) in
         if is_empty rows && negb (sendable v)
         then Raise StoreError
         else Ret rows
     | Abort e => Abort e
     | Raise x => Raise x
     end, s).

(** [Category.query.get(v)] for a value of the request body. *)
Definition Category_query_get_json (v : json) : M (option Category) :=
  fun s =>
    (result_map (fun p => find (fun c => p (c_id c)) (categories s))
                (bind_key v), s).

(** Modelled from the spec: the constructor [Question(...)] and
    [Question.insert] of [models.py], which append the row under the next
    identifier of the store. *)
Definition Question_insert (question answer difficulty category : json)
  : M Question :=
  fun s =>
    match row_values question answer difficulty category with
    | Some (q, a, c, d) =>
        let row := mkQuestion (next_id s) q a c d in
        (Ret row,
         mkStore (questions s ++ [row]) (categories s) (next_id s + 1))
    | None => (Raise StoreError, s)
    end.

(** ** GET /categories/<int:category_id>/questions *)
Definition get_question_by_category_id (category_id : Z) : M (Z * json) :=
  category <- Category_query_get category_id ;;
  category_dot_id <- attr category c_id ;;
  let selection := filter_by_category (JInt category_dot_id) in
  when (negb (selection_truthy selection)) (abort NotFound) ;;;
  rows <- iterate selection ;;
  let questions := map Question_format rows in
  category_dot_type <- attr category c_type ;;
  ret (200, obj [("success", JBool true);
                 ("count", JInt (Z.of_nat (length questions)));
                 ("questions", JList questions);
                 ("current_category", JStr category_dot_type)]).

(** ** POST /questions *)

(** The arm of the [if]/[elif] chain that a body takes. *)
Inductive branch : Type := ByCategory | BySearch | Create | NoBranch.

Definition post_branch (category_query search_query new_question : json)
  : branch :=
  if truthy category_query then ByCategory
  else if truthy search_query then BySearch
  else if truthy new_question then Create
  else NoBranch.

(** The four sub-fields read inside the first [try]. *)
Definition read_new_question (new_question : json)
  : result (json * json * json * json) :=
  match subscript new_question "question" with
  | Ret question_text =>
      match subscript new_question "answer" with
      | Ret answer_text =>
          match subscript new_question "difficulty" with
          | Ret difficulty =>
              match subscript new_question "category" with
              | Ret category =>
                  Ret (question_text, answer_text, difficulty, category)
              | Abort e => Abort e
              | Raise x => Raise x
              end
          | Abort e => Abort e
          | Raise x => Raise x
          end
      | Abort e => Abort e
      | Raise x => Raise x
      end
  | Abort e => Abort e
  | Raise x => Raise x
  end.

(** The create arm: the selection, and the inserted question. *)
Definition create_question (new_question : json)
  : M (selection * option Question) :=
  fields <- try_except (lift (read_new_question new_question))
                       (abort Unprocessable) ;;
  let '(question_text, answer_text, difficulty, category) := fields in
  existing_question <- Question_query_filter_by_question_all question_text ;;
  when (negb (is_empty existing_question)) (abort Conflict) ;;;
  try_except
    (question <- Question_insert question_text answer_text
                                 difficulty category ;;
     selection <- Question_query_all ;;
     ret (Rows selection, Some question))
    (abort Unprocessable).

(** The handler from [status_code = 200] on, once the three members of the
    body are read.  [status_code] is 201 exactly when the create arm has
    inserted a question, which is then the second component of the arm's
    result. *)
Definition post_questions_on (category_query search_query new_question : json)
  : M (Z * json) :=
  arm <-
    match post_branch category_query search_query new_question with
    | ByCategory =>
        let selection := filter_by_category category_query in
        when (negb (selection_truthy selection)) (abort NotFound) ;;;
        ret (selection, None)
    | BySearch =>
        let selection := search_questions search_query in
        when (negb (selection_truthy selection)) (abort NotFound) ;;;
        ret (selection, None)
    | Create => create_question new_question
    | NoBranch => abort Unprocessable
    end ;;
  let '(selection, created) := arm in
  when (negb (selection_truthy selection)) (abort NotFound) ;;;
  rows <- iterate selection ;;
  let questions := map Question_format rows in
  when (is_empty questions) (abort NotFound) ;;;
  match created with
  | Some question =>
      ret (201, obj [("success", JBool true);
                     ("questions", JList questions);
                     ("created", JInt (q_id question));
                     ("count", JInt (Z.of_nat (length questions)))])
  | None =>
      ret (200, obj [("success", JBool true);
                     ("questions", JList questions);
                     ("count", JInt (Z.of_nat (length questions)))])
  end.

(** [body] is the value of [request.get_json()]: the handler is modelled
    for the requests whose body is decoded.  A body that does not parse as
    JSON makes [get_json] raise before anything else is done; that request
    is outside this model. *)
Definition post_questions (body : json) : M (Z * json) :=
  category_query <- lift (dict_get body "category") ;;
  search_query <- lift (dict_get body "search") ;;
  new_question <- lift (dict_get body "question") ;;
  post_questions_on category_query search_query new_question.

(** ** POST /quizzes *)

(** The selected set and the category reported for a [category_id]. *)
Definition quiz_select (category_id : json) : M (selection * json) :=
  if negb (truthy category_id) || py_eq_str category_id "0" then
    selection <- Question_query_all ;;
    ret (Rows selection, JStr "")
  else
    category_query <- Category_query_get_json category_id ;;
    category <- attr category_query Category_format ;;
    ret (filter_by_category category_id, category).

(** [selection[:5]]: the first five rows of a list, the query limited to
    five rows. *)
Definition first_five (sel : selection) : M (list Question) :=
  rows <- iterate sel ;;
  ret (firstn 5 rows).

(** The questions of the comprehension, before [format]. *)
Definition not_previous (previous_questions : json) (rows : list Question)
  : result (list Question) :=
  filterM (fun question =>
             result_map negb (py_in (q_id question) previous_questions))
          rows.

Definition quiz_body (question previous_questions category : json) : json :=
  obj [("success", JBool true);
       ("question", question);
       ("previous_questions", previous_questions);
       ("current_category", category)].

(** [questions[randint(0, len(questions)-1)]] when there are questions,
    [None] otherwise; [seed] stands for the state of the random generator. *)
Definition quiz_question (seed : nat) (questions : list json) : json :=
  if negb (is_empty questions)
  then py_index questions (randint seed 0 (Z.of_nat (length questions) - 1))
  else JNull.

(** [body] is the value of [request.get_json()], as for [post_questions]:
    the requests whose body does not parse as JSON are outside this
    model. *)
Definition get_quizzes (seed : nat) (body : json) : M (Z * json) :=
  quiz_data <- lift (dict_get body "quiz") ;;
  when (negb (truthy quiz_data)) (abort Unprocessable) ;;;
  category_id <- try_except (lift (subscript quiz_data "category_id"))
                            (abort Unprocessable) ;;
  chosen <- quiz_select category_id ;;
  let '(selection, category) := chosen in
  previous_questions <- lift (subscript quiz_data "previous_questions") ;;
  window <- first_five selection ;;
  kept <- lift (not_previous previous_questions window) ;;
  let questions := map Question_format kept in
  let question := quiz_question seed questions in
  ret (200, quiz_body question previous_questions category).

End Handlers.

Arguments obj : simpl never.

(** ** The page window of the specification

    Section 4.1 describes the page as the window
    [[(page-1)*10, (page-1)*10+10)] over the question collection: the items
    whose position lies in that interval.  [window_from i lo hi l] keeps the
    items of [l], whose first item has position [i], at the positions from
    [lo] up to [hi - 1]. *)
Fixpoint window_from {A} (i lo hi : Z) (l : list A) : list A :=
  match l with
  | [] => []
  | x :: t =>
      if (lo <=? i) && (i <? hi)
      then x :: window_from (i + 1) lo hi t
      else window_from (i + 1) lo hi t
  end.

Definition page_window {A} (page : Z) (l : list A) : list A :=
  window_from 0 ((page - 1) * 10) ((page - 1) * 10 + 10) l.

(** ** Concrete stores and a driver to run the handlers on *)

(** Strings without the character NUL, and the integers of a column of
    four bytes. *)
Fixpoint no_nul (t : string) : bool :=
  match t with
  | EmptyString => true
  | String c r => negb (Ascii.eqb c Ascii.zero) && no_nul r
  end.

Definition int4 (z : Z) : bool :=
  (-2147483648 <=? z) && (z <=? 2147483647).

Definition plain_row (q a : string) (c d : Z) : bool :=
  no_nul q && no_nul a && int4 c && int4 d.

(** A driver that sends the strings without NUL, whose store takes the rows
    of such strings and of integers of four bytes, and that refuses every
    value of another type than the column's and every search. *)
Definition refusing_driver : Driver :=
  {| binds_text := no_nul;
     accepts_row := plain_row;
     foreign_key := fun _ => Raise StoreError;
     foreign_int := fun _ => Raise StoreError;
     foreign_text := fun _ => Raise StoreError;
     ilike_term := fun _ => Raise StoreError;
     foreign_row := fun _ _ _ _ => None |}.

Definition sample_question (i category : Z) : Question :=
  mkQuestion i ("question " ++ pretty i) ("answer " ++ pretty i) category 1.

Definition sample_categories : list Category :=
  [mkCategory 1 "Science"; mkCategory 2 "Art"; mkCategory 3 "Geography"].

(** Twelve questions, in the categories 1 and 2; category 3 has none. *)
Definition sample_store : store :=
  mkStore
    (map (fun i => sample_question i (1 + i mod 2))
         [2; 4; 5; 6; 9; 10; 11; 12; 13; 14; 15; 16])
    sample_categories
    17.

Definition empty_store : store := mkStore [] sample_categories 1.


(** The rows of a listing other than those of the identifier [id]. *)
Definition without (id : Z) (l : list Question) : list Question :=
  List.filter (fun r => negb (q_id r =? id)) l.

(** The questions of the category [c]. *)
Definition in_category (c : Z) (l : list Question) : list Question :=
  List.filter (fun q => c =? q_category q) l.

(** [question.id not in previous_questions] for a list of previous
    questions. *)
Definition not_in_list (prev : list json) (q : Question) : bool :=
  negb (existsb (py_eq_int (q_id q)) prev).

(** ** Notions used in the statements *)

(** The list under [questions] in a response body; empty when the body has
    no such list, as in the four error envelopes. *)
Definition response_questions (r : response) : list json :=
  match field "questions" (body r) with
  | Some (JList l) => l
  | _ => []
  end.

(** A computation that leaves the store as it found it. *)
Definition read_only {A} (m : M A) : Prop := forall s, snd (m s) = s.

(** The pages 1 to [n], as the values of [?page=]. *)
Definition pages (n : nat) : list Z := map Z.of_nat (seq 1 n).

(** Question texts are pairwise distinct. *)
Definition unique_texts (s : store) : Prop :=
  List.NoDup (map q_question (questions s)).

(** The shape shared by the responses: one of the six status codes, a
    [success] member that tells success from failure, and, on failure, an
    [error] member that repeats the status. *)
Definition envelope (r : response) : Prop :=
  (status r = 200 \/ status r = 201)
  /\ field "success" (body r) = Some (JBool true)
  \/ (status r = 404 \/ status r = 409 \/ status r = 422 \/ status r = 500)
     /\ field "success" (body r) = Some (JBool false)
     /\ field "error" (body r) = Some (JInt (status r)).

(** The body of the response to a creation, for the questions of the store
    after it and the question created. *)
Definition created_body (rows : list Question) (row : Question) : json :=
  obj [("success", JBool true);
       ("questions", JList (map Question_format rows));
       ("created", JInt (q_id row));
       ("count", JInt (Z.of_nat (length (map Question_format rows))))].

(** The store after the insertion of a row. *)
Definition with_row (s : store) (row : Question) : store :=
  mkStore (questions s ++ [row]) (categories s) (next_id s + 1).

(** A driver for which every search keeps the texts that satisfy [p], and
    which refuses every value it is not bound to accept. *)
Definition searching_driver (p : string -> bool) : Driver :=
  {| binds_text := no_nul;
     accepts_row := plain_row;
     foreign_key := fun _ => Raise StoreError;
     foreign_int := fun _ => Raise StoreError;
     foreign_text := fun _ => Raise StoreError;
     ilike_term := fun _ => Ret p;
     foreign_row := fun _ _ _ _ => None |}.

(** The integer that a string of decimal digits writes. *)
Definition digit_of (c : Ascii.ascii) : option Z :=
  let n := Z.of_N (Ascii.N_of_ascii c) in
  if (48 <=? n) && (n <=? 57) then Some (n - 48) else None.

Fixpoint digits_value (acc : Z) (t : string) : option Z :=
  match t with
  | EmptyString => Some acc
  | String c r =>
      match digit_of c with
      | Some d => digits_value (10 * acc + d) r
      | None => None
      end
  end.

Definition decimal (t : string) : option Z :=
  match t with
  | EmptyString => None
  | String _ _ => digits_value 0 t
  end.

(** A driver whose store reads a string of decimal digits, compared with
    an integer column, as the integer it writes, the way a quoted literal
    is read by PostgreSQL. *)
Definition coercing_driver : Driver :=
  {| binds_text := no_nul;
     accepts_row := plain_row;
     foreign_key := fun _ => Raise StoreError;
     foreign_int := fun v =>
       match v with
       | JStr t =>
           match decimal t with
           | Some z => Ret (Z.eqb z)
           | None => Raise StoreError
           end
       | _ => Raise StoreError
       end;
     foreign_text := fun _ => Raise StoreError;
     ilike_term := fun _ => Raise StoreError;
     foreign_row := fun _ _ _ _ => None |}.

(** A store with a question of category 0. *)
Definition zero_category_store : store :=
  mkStore [sample_question 1 0; sample_question 2 1; sample_question 3 0]
          sample_categories 4.


(** The values that [in] cannot search: [None], booleans, numbers and
    strings (a string only holds strings). *)
Definition scalar (v : json) : Prop :=
  match v with
  | JList _ | JObj _ => False
  | _ => True
  end.

(** What a handler returns is a status 200 or 201 with a body whose
    [success] is true. *)
Definition returns_success (m : M (Z * json)) : Prop :=
  forall s code b s',
    m s = (Ret (code, b), s') ->
    (code = 200 \/ code = 201) /\ field "success" b = Some (JBool true).

(** * Properties *)

(** ** The handlers on the sample store *)

Example truthy_values :
  map truthy [JNull; JBool false; JInt 0; JStr ""; JList []; obj [];
              JInt 5; JStr "0"; JList [JInt 0]; obj [("a", JNull)]]
  = [false; false; false; false; false; false; true; true; true; true].
Proof. vm_compute. reflexivity. Qed.

Example py_slice_second_page :
  py_slice [1; 2; 3; 4; 5; 6; 7; 8; 9; 10; 11; 12] 10 20 = [11; 12].
Proof. reflexivity. Qed.

Example py_slice_negative :
  py_slice [1; 2; 3; 4; 5; 6; 7; 8; 9; 10; 11; 12] (-20) (-10) = [1; 2].
Proof. reflexivity. Qed.

Example page_window_negative :
  page_window (-1) [1; 2; 3; 4; 5; 6; 7; 8; 9; 10; 11; 12] = [].
Proof. reflexivity. Qed.

Example get_questions_empty_store :
  serve (get_questions None) empty_store = (not_found, empty_store).
Proof. vm_compute. reflexivity. Qed.

Example get_categories_sample :
  let r := fst (serve get_categories sample_store) in
  status r = 200 /\ field "count" (body r) = Some (JInt 3).
Proof. vm_compute. split; reflexivity. Qed.

Example post_questions_unknown_category :
  serve (@post_questions refusing_driver (obj [("category", JInt 5000)]))
        sample_store
  = (not_found, sample_store).
Proof. vm_compute. reflexivity. Qed.

Example post_questions_creates :
  let request :=
    obj [("question",
          obj [("question", JStr "new question"); ("answer", JStr "answer");
               ("category", JInt 1); ("difficulty", JInt 1)])] in
  let out := serve (@post_questions refusing_driver request) sample_store in
  status (fst out) = 201
  /\ field "created" (body (fst out)) = Some (JInt 17)
  /\ field "count" (body (fst out)) = Some (JInt 13)
  /\ fst (serve (@post_questions refusing_driver request) (snd out))
     = resource_already_exists.
Proof. vm_compute. repeat split; reflexivity. Qed.

Example get_quizzes_draws :
  let request :=
    obj [("quiz", obj [("category_id", JInt 1);
                       ("previous_questions", JList [JInt 2; JInt 4])])] in
  field "question"
        (body (fst (serve (@get_quizzes refusing_driver 7 request)
                          sample_store)))
  = Some (Question_format (sample_question 10 1)).
Proof. vm_compute. reflexivity. Qed.

Example get_quizzes_exhausted :
  let request :=
    obj [("quiz", obj [("category_id", JStr "0");
                       ("previous_questions",
                        JList [JInt 2; JInt 4; JInt 5; JInt 6; JInt 9])])] in
  let r := fst (serve (@get_quizzes refusing_driver 7 request) sample_store) in
  status r = 200
  /\ field "success" (body r) = Some (JBool true)
  /\ field "question" (body r) = Some JNull.
Proof. vm_compute. repeat split; reflexivity. Qed.

(** ** Lists, slices and windows *)

Lemma is_empty_nil {A} (l : list A) : is_empty l = true <-> l = [].
Proof. destruct l; simpl; split; congruence. Qed.

Lemma is_empty_map {A B} (f : A -> B) (l : list A) :
  is_empty (map f l) = is_empty l.
Proof. destruct l; reflexivity. Qed.

Lemma window_from_firstn_skipn {A} (l : list A) : forall i lo hi,
  window_from i lo hi l =
  firstn (Z.to_nat (hi - Z.max lo i)) (skipn (Z.to_nat (lo - i)) l).
Proof.
  induction l as [|x t IH]; intros i lo hi; simpl.
  - rewrite skipn_nil, firstn_nil. reflexivity.
  - rewrite IH. clear IH.
    destruct (Z.leb_spec lo i) as [Hlo|Hlo]; simpl.
    + replace (Z.to_nat (lo - i)) with 0%nat by lia.
      replace (Z.to_nat (lo - (i + 1))) with 0%nat by lia.
      simpl. rewrite !Z.max_r by lia.
      destruct (Z.ltb_spec i hi) as [Hhi|Hhi].
      * replace (Z.to_nat (hi - i)) with (S (Z.to_nat (hi - (i + 1)))) by lia.
        reflexivity.
      * replace (Z.to_nat (hi - i)) with 0%nat by lia.
        replace (Z.to_nat (hi - (i + 1))) with 0%nat by lia.
        reflexivity.
    + replace (Z.to_nat (lo - i)) with (S (Z.to_nat (lo - (i + 1)))) by lia.
      simpl. rewrite !Z.max_l by lia. reflexivity.
Qed.

(** For a start that is not negative, Python's slice is the window. *)
Lemma py_slice_window {A} (l : list A) (lo hi : Z) :
  0 <= lo -> 0 <= hi -> py_slice l lo hi = window_from 0 lo hi l.
Proof.
  intros Hlo Hhi. rewrite window_from_firstn_skipn.
  unfold py_slice, clamp_index.
  destruct (Z.ltb_spec lo 0) as [?|_]; [lia|].
  destruct (Z.ltb_spec hi 0) as [?|_]; [lia|].
  rewrite Z.max_l, Z.sub_0_r by lia.
  destruct (Z.le_gt_cases (Z.of_nat (length l)) lo) as [Hout|Hin].
  - rewrite !skipn_all2, !firstn_nil; [reflexivity|lia|lia].
  - rewrite (Z.min_l lo) by lia.
    destruct (Z.le_gt_cases hi (Z.of_nat (length l))) as [Hh|Hh].
    + rewrite Z.min_l by lia. reflexivity.
    + rewrite Z.min_r by lia.
      rewrite !firstn_all2; [reflexivity| |]; rewrite length_skipn; lia.
Qed.

(** Page 0 is the slice [l[-10:0]], which is empty, as is its window. *)
Lemma py_slice_stop_0 {A} (l : list A) (lo : Z) : py_slice l lo 0 = [].
Proof.
  unfold py_slice.
  assert (H : clamp_index (Z.of_nat (length l)) 0 = 0)
    by (unfold clamp_index; simpl; lia).
  rewrite H.
  assert (H' : 0 <= clamp_index (Z.of_nat (length l)) lo)
    by (unfold clamp_index; destruct (Z.ltb_spec lo 0); lia).
  replace (Z.to_nat (0 - _)) with 0%nat by lia. reflexivity.
Qed.

Lemma window_from_before {A} (l : list A) : forall i lo hi,
  hi <= i -> window_from i lo hi l = [].
Proof.
  induction l as [|x t IH]; intros i lo hi H; simpl; [reflexivity|].
  rewrite IH by lia.
  destruct (Z.ltb_spec i hi); [lia|]. rewrite andb_false_r. reflexivity.
Qed.

Lemma get_questions_page {A} (l : list A) (page : Z) :
  0 <= page ->
  py_slice l ((page - 1) * QUESTIONS_PER_PAGE)
             ((page - 1) * QUESTIONS_PER_PAGE + QUESTIONS_PER_PAGE)
  = page_window page l.
Proof.
  intros Hp. unfold page_window, QUESTIONS_PER_PAGE.
  destruct (Z.eq_dec page 0) as [->|Hne].
  - simpl. rewrite py_slice_stop_0, window_from_before by lia. reflexivity.
  - apply py_slice_window; lia.
Qed.

(** ** GET /questions *)

Lemma get_questions_unfold (page_arg : option Z) (s : store) :
  let page := default 1 page_arg in
  let start := (page - 1) * QUESTIONS_PER_PAGE in
  let page_rows := py_slice (questions s) start (start + QUESTIONS_PER_PAGE) in
  get_questions page_arg s =
  (if is_empty (questions s) then Abort NotFound
   else if is_empty page_rows then Abort NotFound
   else Ret (200, obj [("success", JBool true);
                       ("questions", JList (map Question_format page_rows));
                       ("count", JInt (Z.of_nat (length (questions s))));
                       ("categories",
                        JList (map Category_format (categories s)));
                       ("current_category", JNull)]),
   s).
Proof.
  intros page start page_rows.
  unfold get_questions, bind, Question_query_all, Category_query_all, when.
  fold page. fold start. fold page_rows.
  destruct (is_empty (questions s)); simpl; [reflexivity|].
  rewrite is_empty_map.
  destruct (is_empty page_rows); reflexivity.
Qed.

(** The store is only read. *)
Lemma get_questions_store (page_arg : option Z) (s : store) :
  snd (serve (get_questions page_arg) s) = s.
Proof.
  unfold serve. rewrite get_questions_unfold. reflexivity.
Qed.

(** C2. On every page for which GET /questions succeeds, the [count] of the
    response is the total number of questions in the store, whatever the
    length of the page returned. *)
Theorem get_questions_count_is_total (page_arg : option Z) (s : store) :
  status (fst (serve (get_questions page_arg) s)) = 200 ->
  field "count" (body (fst (serve (get_questions page_arg) s)))
  = Some (JInt (Z.of_nat (length (questions s)))).
Proof.
  unfold serve. rewrite get_questions_unfold. simpl.
  destruct (is_empty (questions s)); simpl; [discriminate|].
  destruct (is_empty _); simpl; [discriminate|].
  intros _. reflexivity.
Qed.

Lemma get_questions_count_is_total_witness :
  field "count" (body (fst (serve (get_questions (Some 2)) sample_store)))
  = Some (JInt 12).
Proof.
  apply (get_questions_count_is_total (Some 2) sample_store).
  vm_compute. reflexivity.
Defined.

(** C4, as the specification states it, fails for a negative page number:
    with twelve questions, [?page=-1] has the window [[-20, -10)], which
    holds no item, yet [selection[-20:-10]] counts from the end of the list,
    is [selection[0:2]], and the response is a success. *)
Lemma get_questions_negative_page_found :
  ~ (fst (serve (get_questions (Some (-1))) sample_store) = not_found
     <-> questions sample_store = []
         \/ page_window (-1) (questions sample_store) = []).
Proof.
  intros [_ H].
  assert (E : fst (serve (get_questions (Some (-1))) sample_store)
              = not_found) by (apply H; right; vm_compute; reflexivity).
  apply (f_equal status) in E. vm_compute in E. discriminate E.
Qed.

(** C4, amended. For a page number that is not negative, GET /questions
    answers with the not-found envelope exactly when the store holds no
    question or the window [[(page-1)*10, (page-1)*10+10)] over the
    questions holds no item; the envelope is the same in both cases. *)
Theorem get_questions_not_found_iff (page_arg : option Z) (s : store) :
  0 <= default 1 page_arg ->
  fst (serve (get_questions page_arg) s) = not_found
  <-> questions s = []
      \/ page_window (default 1 page_arg) (questions s) = [].
Proof.
  intros Hpage. unfold serve. rewrite get_questions_unfold. simpl.
  rewrite get_questions_page by exact Hpage.
  rewrite <- !is_empty_nil.
  destruct (is_empty (questions s)); simpl; [tauto|].
  destruct (is_empty (page_window _ _)); simpl; [tauto|].
  split.
  - intros E. apply (f_equal status) in E. discriminate E.
  - intros [E|E]; discriminate E.
Qed.

Lemma get_questions_not_found_iff_witness :
  fst (serve (get_questions (Some 3)) sample_store) = not_found.
Proof.
  apply (get_questions_not_found_iff (Some 3) sample_store).
  - simpl. lia.
  - right. vm_compute. reflexivity.
Defined.

(** ** DELETE /questions/<id> *)

Lemma find_by_id_Some (id : Z) (l : list Question) (q : Question) :
  find (fun r => q_id r =? id) l = Some q -> In q l /\ q_id q = id.
Proof.
  intros H. apply find_some in H. destruct H as [Hin Hid].
  split; [exact Hin|]. apply Z.eqb_eq. exact Hid.
Qed.

Lemma find_by_id_None (id : Z) (l : list Question) :
  find (fun r => q_id r =? id) l = None <-> (forall r, In r l -> q_id r <> id).
Proof.
  split.
  - intros H r Hin E. apply (find_none _ _ H) in Hin.
    apply Z.eqb_neq in Hin. contradiction.
  - intros H. destruct (find _ l) as [q|] eqn:E; [|reflexivity].
    apply find_by_id_Some in E. destruct E as [Hin Hid].
    exfalso. exact (H q Hin Hid).
Qed.

Lemma In_without (id : Z) (l : list Question) (r : Question) :
  In r (without id l) <-> In r l /\ q_id r <> id.
Proof.
  unfold without. rewrite filter_In, negb_true_iff, Z.eqb_neq. reflexivity.
Qed.

Lemma without_absent (id : Z) (l : list Question) :
  (forall r, In r l -> q_id r <> id) -> without id l = l.
Proof.
  induction l as [|x t IH]; intros H; simpl; [reflexivity|].
  destruct (Z.eqb_spec (q_id x) id) as [E|_]; simpl.
  - exfalso. apply (H x); [left; reflexivity|exact E].
  - f_equal. apply IH. intros r Hr. apply H. right. exact Hr.
Qed.

Lemma delete_question_unfold (id : Z) (s : store) :
  delete_question id s =
  match find (fun r => q_id r =? id) (questions s) with
  | None => (Abort NotFound, s)
  | Some q =>
      let rest := without (q_id q) (questions s) in
      (if is_empty rest then Abort NotFound
       else Ret (200, obj [("success", JBool true);
                           ("questions", JList (map Question_format rest));
                           ("count",
                            JInt (Z.of_nat
                                    (length (map Question_format rest))))]),
       mkStore rest (categories s) (next_id s))
  end.
Proof.
  unfold delete_question, bind, Question_query_get, Question_query_all,
    Question_delete, when, abort, without.
  destruct (find _ (questions s)) as [q|]; [|reflexivity].
  cbn [questions categories next_id].
  destruct (is_empty (List.filter _ _)) eqn:E; simpl; [reflexivity|].
  rewrite is_empty_map, E. reflexivity.
Qed.

(** C8. Deleting the question of an identifier that the store holds removes
    exactly that question: a later fetch by that identifier finds nothing,
    the question is no longer in the full listing, and a question is in the
    listing afterwards exactly when it was before and has another
    identifier (which, identifiers being unique, is to be another
    question); the categories are untouched.  For an identifier that the
    store does not hold the response is the not-found envelope and the store
    is unchanged. *)
Theorem delete_question_spec (id : Z) (s : store) :
  let r := fst (serve (delete_question id) s) in
  let s' := snd (serve (delete_question id) s) in
  (forall q, fst (Question_query_get id s) = Ret (Some q) ->
     fst (Question_query_get id s') = Ret None
     /\ fst (Question_query_all s') = Ret (without id (questions s))
     /\ ~ In q (questions s')
     /\ (forall x, In x (questions s') <-> In x (questions s) /\ q_id x <> id)
     /\ (List.NoDup (map q_id (questions s)) ->
         forall x, In x (questions s') <-> In x (questions s) /\ x <> q)
     /\ categories s' = categories s)
  /\ (fst (Question_query_get id s) = Ret None -> r = not_found /\ s' = s).
Proof.
  unfold serve. rewrite delete_question_unfold.
  unfold Question_query_get, Question_query_all. simpl.
  split.
  - intros q Hq. injection Hq as Hq. rewrite Hq. simpl.
    destruct (find_by_id_Some _ _ _ Hq) as [Hin Hid]. rewrite Hid.
    split; [|split; [reflexivity|split; [|split; [|split]]]].
    + f_equal. apply find_by_id_None. intros x Hx.
      apply In_without in Hx. tauto.
    + rewrite In_without. tauto.
    + intros x. apply In_without.
    + intros Hnd x. rewrite In_without. split.
      * intros [Hx Hne]. split; [exact Hx|]. congruence.
      * intros [Hx Hne]. split; [exact Hx|]. intros E. apply Hne.
        clear - Hnd Hin Hx E Hid. subst id.
        induction (questions s) as [|y t IH]; [contradiction|].
        simpl in Hnd. inversion Hnd as [|? ? Hy Ht]; subst.
        destruct Hin as [->|Hin], Hx as [->|Hx]; try reflexivity.
        -- exfalso. apply Hy. rewrite <- E. apply in_map. exact Hx.
        -- exfalso. apply Hy. rewrite E. apply in_map. exact Hin.
        -- apply IH; assumption.
    + reflexivity.
  - intros Hq. injection Hq as Hq. rewrite Hq. simpl. split; reflexivity.
Qed.

Lemma delete_question_spec_witness :
  fst (Question_query_get 9 (snd (serve (delete_question 9) sample_store)))
  = Ret None
  /\ fst (serve (delete_question 3) sample_store) = not_found.
Proof.
  split.
  - apply (proj1 (delete_question_spec 9 sample_store)
                 (sample_question 9 2)).
    vm_compute. reflexivity.
  - apply (proj2 (delete_question_spec 3 sample_store)).
    vm_compute. reflexivity.
Defined.

(** ** GET /categories/<id>/questions *)

Section CategoryRoute.

Context {D : Driver}.

Lemma get_question_by_category_id_unfold (category_id : Z) (s : store) :
  get_question_by_category_id category_id s =
  match find (fun c => c_id c =? category_id) (categories s) with
  | None => (Raise AttributeError, s)
  | Some c =>
      let rows := in_category (c_id c) (questions s) in
      (Ret (200, obj [("success", JBool true);
                      ("count",
                       JInt (Z.of_nat (length (map Question_format rows))));
                      ("questions", JList (map Question_format rows));
                      ("current_category", JStr (c_type c))]), s)
  end.
Proof.
  unfold get_question_by_category_id, bind, Category_query_get, attr, lift.
  destruct (find _ (categories s)) as [c|]; reflexivity.
Qed.

(** The guard [if not selection] tests a query, which is always true: the
    route never answers not-found.  With a category that exists the
    response is a success, whatever the number of its questions; without,
    it is the internal error. *)
Lemma get_question_by_category_id_status (category_id : Z) (s : store) :
  status (fst (serve (get_question_by_category_id category_id) s)) =
  match find (fun c => c_id c =? category_id) (categories s) with
  | Some _ => 200
  | None => 500
  end.
Proof.
  unfold serve. rewrite get_question_by_category_id_unfold.
  destruct (find _ (categories s)); reflexivity.
Qed.

End CategoryRoute.

(** C7 does not hold of the code: category 3 of the sample store exists and
    has no question, the filtered result set is empty, and the response is
    a success with [count] 0 and an empty list of questions. *)
Theorem get_question_by_category_id_empty_result :
  let r := fst (serve (@get_question_by_category_id refusing_driver 3)
                      sample_store) in
  in_category 3 (questions sample_store) = []
  /\ status r = 200
  /\ field "success" (body r) = Some (JBool true)
  /\ field "count" (body r) = Some (JInt 0)
  /\ field "questions" (body r) = Some (JList []).
Proof. vm_compute. repeat split; reflexivity. Qed.

(** ** POST /questions *)

Lemma lookup_Some_truthy (d : gmap string json) (k : string) (v : json) :
  d !! k = Some v -> truthy (JObj d) = true.
Proof.
  intros H. simpl. apply negb_true_iff, Nat.eqb_neq. intros E.
  apply map_size_empty_iff in E. subst d. rewrite lookup_empty in H.
  discriminate H.
Qed.

Section PostQuestions.

Context {D : Driver}.

Lemma post_questions_obj (d : gmap string json) :
  post_questions (JObj d) =
  post_questions_on (default JNull (d !! "category"))
                    (default JNull (d !! "search"))
                    (default JNull (d !! "question")).
Proof. reflexivity. Qed.

(** A member that is false in a boolean context is as good as missing. *)
Lemma post_questions_on_falsy_category (cq sq nq : json) :
  truthy cq = false ->
  post_questions_on cq sq nq = post_questions_on JNull sq nq.
Proof.
  intros H. unfold post_questions_on, post_branch. rewrite H. simpl.
  destruct (truthy sq); [|destruct (truthy nq)]; reflexivity.
Qed.

Lemma post_questions_on_falsy_search (cq sq nq : json) :
  truthy sq = false ->
  post_questions_on cq sq nq = post_questions_on cq JNull nq.
Proof.
  intros H. unfold post_questions_on, post_branch. rewrite H. simpl.
  destruct (truthy cq); [|destruct (truthy nq)]; reflexivity.
Qed.

Lemma post_questions_on_nothing (s : store) :
  serve (post_questions_on JNull JNull JNull) s = (not_processable, s).
Proof. reflexivity. Qed.

(** The create arm when a sub-field cannot be read. *)
Lemma create_question_unreadable (v : json) (x : exn) (s : store) :
  read_new_question v = Raise x ->
  create_question v s = (Abort Unprocessable, s).
Proof.
  intros H. unfold create_question, bind, try_except, lift. rewrite H.
  reflexivity.
Qed.

Lemma read_new_question_missing (nq : gmap string json) :
  nq !! "question" = None \/ nq !! "answer" = None
  \/ nq !! "difficulty" = None \/ nq !! "category" = None ->
  read_new_question (JObj nq) = Raise KeyError.
Proof.
  unfold read_new_question, subscript.
  destruct (nq !! "question"), (nq !! "answer"), (nq !! "difficulty"),
    (nq !! "category");
    intros [H|[H|[H|H]]]; try discriminate H; reflexivity.
Qed.

Lemma post_questions_on_create (cq sq nq : json) (s : store) :
  truthy cq = false -> truthy sq = false -> truthy nq = true ->
  post_questions_on cq sq nq s =
  (arm <- create_question nq ;;
   let '(selection, created) := arm in
   when (negb (selection_truthy selection)) (abort NotFound) ;;;
   rows <- iterate selection ;;
   let questions := map Question_format rows in
   when (is_empty questions) (abort NotFound) ;;;
   match created with
   | Some question =>
       ret (201, obj [("success", JBool true);
                      ("questions", JList questions);
                      ("created", JInt (q_id question));
                      ("count", JInt (Z.of_nat (length questions)))])
   | None =>
       ret (200, obj [("success", JBool true);
                      ("questions", JList questions);
                      ("count", JInt (Z.of_nat (length questions)))])
   end) s.
Proof.
  intros Hc Hs Hn. unfold post_questions_on, post_branch.
  rewrite Hc, Hs, Hn. reflexivity.
Qed.

End PostQuestions.

(** C6. A create request whose question object lacks one of the four
    sub-fields [question], [answer], [difficulty], [category] is answered
    with the unprocessable envelope, and the store is left as it was. *)
Theorem post_questions_missing_field
  {D : Driver} (d nq : gmap string json) (s : store) :
  truthy (default JNull (d !! "category")) = false ->
  truthy (default JNull (d !! "search")) = false ->
  d !! "question" = Some (JObj nq) ->
  nq !! "question" = None \/ nq !! "answer" = None
  \/ nq !! "difficulty" = None \/ nq !! "category" = None ->
  serve (post_questions (JObj d)) s = (not_processable, s).
Proof.
  intros Hc Hs Hq Hmiss. rewrite post_questions_obj, Hq. simpl default.
  destruct (truthy (JObj nq)) eqn:Hn.
  - unfold serve. rewrite post_questions_on_create by assumption.
    unfold bind at 1.
    rewrite (create_question_unreadable _ KeyError)
      by (apply read_new_question_missing; exact Hmiss).
    reflexivity.
  - unfold serve, post_questions_on, post_branch. rewrite Hc, Hs, Hn.
    reflexivity.
Qed.

Lemma post_questions_missing_field_witness :
  serve (@post_questions refusing_driver
           (obj [("question",
                  obj [("question", JStr "");
                       ("category", JInt 1);
                       ("difficulty", JInt 1)])]))
        sample_store
  = (not_processable, sample_store).
Proof.
  apply (@post_questions_missing_field refusing_driver _
           (list_to_map [("question", JStr "");
                         ("category", JInt 1);
                         ("difficulty", JInt 1)])).
  - vm_compute. reflexivity.
  - vm_compute. reflexivity.
  - vm_compute. reflexivity.
  - right. left. vm_compute. reflexivity.
Defined.

Lemma read_new_question_complete (nq : gmap string json) (t a d c : json) :
  nq !! "question" = Some t -> nq !! "answer" = Some a ->
  nq !! "difficulty" = Some d -> nq !! "category" = Some c ->
  read_new_question (JObj nq) = Ret (t, a, d, c).
Proof.
  intros Ht Ha Hd Hc. unfold read_new_question, subscript.
  rewrite Ht, Ha, Hd, Hc. reflexivity.
Qed.

Lemma filter_text_nonempty (t : string) (l : list Question) (q : Question) :
  In q l -> q_question q = t ->
  is_empty (List.filter (fun r => String.eqb t (q_question r)) l) = false.
Proof.
  intros Hin Ht.
  destruct (List.filter _ l) as [|x r] eqn:E; [|reflexivity].
  assert (H : In q (List.filter (fun r => String.eqb t (q_question r)) l)).
  { apply filter_In. split; [exact Hin|]. apply String.eqb_eq. congruence. }
  rewrite E in H. contradiction.
Qed.

(** C3. A create request whose question text is the text of a question in
    the store is answered with the conflict envelope, whatever the values
    of its answer, difficulty and category, and nothing is inserted. *)
Theorem post_questions_duplicate_text
  {D : Driver} (d nq : gmap string json) (s : store)
  (text : string) (answer difficulty category : json) (q : Question) :
  truthy (default JNull (d !! "category")) = false ->
  truthy (default JNull (d !! "search")) = false ->
  d !! "question" = Some (JObj nq) ->
  nq !! "question" = Some (JStr text) ->
  nq !! "answer" = Some answer ->
  nq !! "difficulty" = Some difficulty ->
  nq !! "category" = Some category ->
  In q (questions s) -> q_question q = text ->
  serve (post_questions (JObj d)) s = (resource_already_exists, s).
Proof.
  intros Hc Hs Hq Ht Ha Hd Hcat Hin Htext.
  rewrite post_questions_obj, Hq. simpl default.
  unfold serve.
  rewrite post_questions_on_create
    by (try assumption; exact (lookup_Some_truthy _ _ _ Ht)).
  unfold bind at 1. unfold create_question, bind, try_except, lift.
  rewrite (read_new_question_complete _ _ _ _ _ Ht Ha Hd Hcat).
  unfold Question_query_filter_by_question_all, bind_text.
  rewrite (filter_text_nonempty _ _ _ Hin Htext). cbn [andb].
  rewrite (filter_text_nonempty _ _ _ Hin Htext). reflexivity.
Qed.

Lemma post_questions_duplicate_text_witness :
  serve (@post_questions refusing_driver
           (obj [("question",
                  obj [("question", JStr "question 5");
                       ("answer", JStr "another answer");
                       ("category", JInt 3);
                       ("difficulty", JInt 4)])]))
        sample_store
  = (resource_already_exists, sample_store).
Proof.
  apply (@post_questions_duplicate_text refusing_driver _
           (list_to_map [("question", JStr "question 5");
                         ("answer", JStr "another answer");
                         ("category", JInt 3);
                         ("difficulty", JInt 4)])
           sample_store "question 5" (JStr "another answer")
           (JInt 4) (JInt 3) (sample_question 5 2)).
  - vm_compute. reflexivity.
  - vm_compute. reflexivity.
  - vm_compute. reflexivity.
  - vm_compute. reflexivity.
  - vm_compute. reflexivity.
  - vm_compute. reflexivity.
  - vm_compute. reflexivity.
  - vm_compute. tauto.
  - vm_compute. reflexivity.
Defined.

(** C9, as it is stated, fails in its last clause: category 0 can be
    filtered through this route.  The string "0" is true in a boolean
    context, so the body [{"category": "0"}] takes the category arm, and a
    store that reads the string as the integer it writes selects the
    questions of category 0: here the arm is taken and the selection holds
    a question of category 0. *)
Lemma post_questions_category_zero_as_string :
  ~ (forall (D : Driver) (v : json) (s : store) (rows : list Question),
       post_branch v JNull JNull = ByCategory ->
       iterate (filter_by_category v) s = (Ret rows, s) ->
       forall q, In q rows -> q_category q <> 0).
Proof.
  intros H.
  apply (H coercing_driver (JStr "0") zero_category_store
           (in_category 0 (questions zero_category_store))
           eq_refl eq_refl (sample_question 1 0)).
  - left. reflexivity.
  - reflexivity.
Qed.

Example post_questions_category_zero_string_response :
  serve (@post_questions coercing_driver (obj [("category", JStr "0")]))
        zero_category_store
  = (mkResponse 200
       (obj [("success", JBool true);
             ("questions",
              JList [Question_format (sample_question 1 0);
                     Question_format (sample_question 3 0)]);
             ("count", JInt 2)]), zero_category_store).
Proof. vm_compute. reflexivity. Qed.

(** C9, amended. A member of the body that is present but false in a
    boolean context is treated as if it were missing: the body answers as
    the body without that member does, so a [category] of 0 does not take
    the category arm and a [search] that is the empty string does not take
    the search arm.  A body that only has [category: 0], or only
    [search: ""], is therefore unprocessable.  Consequently a [category]
    given as the number 0, or as any other value that is false in a boolean
    context, is never filtered through this route, whatever else the body
    holds; nothing is said of a value that is true, such as the string
    "0". *)
Theorem post_questions_falsy_member
  {D : Driver} (s : store) :
  (forall (d : gmap string json) (v : json),
     d !! "category" = Some v -> truthy v = false ->
     post_questions (JObj d) s
     = post_questions (JObj (delete "category" d)) s)
  /\ (forall (d : gmap string json) (v : json),
        d !! "search" = Some v -> truthy v = false ->
        post_questions (JObj d) s
        = post_questions (JObj (delete "search" d)) s)
  /\ serve (post_questions (obj [("category", JInt 0)])) s
     = (not_processable, s)
  /\ serve (post_questions (obj [("search", JStr "")])) s
     = (not_processable, s)
  /\ (forall category_query search_query new_question : json,
        truthy category_query = false ->
        post_branch category_query search_query new_question <> ByCategory)
  /\ (forall category_query search_query new_question : json,
        truthy search_query = false ->
        post_branch category_query search_query new_question <> BySearch)
  /\ (forall d : gmap string json,
        d !! "category" = Some (JInt 0) ->
        post_branch (JInt 0) (default JNull (d !! "search"))
                    (default JNull (d !! "question")) <> ByCategory
        /\ post_questions (JObj d) s
           = post_questions (JObj (delete "category" d)) s).
Proof.
  assert (H1 : forall (d : gmap string json) (v : json),
             d !! "category" = Some v -> truthy v = false ->
             post_questions (JObj d) s
             = post_questions (JObj (delete "category" d)) s).
  { intros d v Hv Hf. rewrite !post_questions_obj.
    rewrite lookup_delete_eq, !lookup_delete_ne by discriminate.
    rewrite Hv. simpl default.
    rewrite post_questions_on_falsy_category by exact Hf. reflexivity. }
  assert (H5 : forall cq sq nq : json,
             truthy cq = false -> post_branch cq sq nq <> ByCategory).
  { intros cq sq nq Hf. unfold post_branch. rewrite Hf.
    destruct (truthy sq); [|destruct (truthy nq)]; discriminate. }
  split; [exact H1|]. split; [|split; [|split; [|split; [|split]]]].
  - intros d v Hv Hf. rewrite !post_questions_obj.
    rewrite lookup_delete_eq, !lookup_delete_ne by discriminate.
    rewrite Hv. simpl default.
    rewrite post_questions_on_falsy_search by exact Hf. reflexivity.
  - reflexivity.
  - reflexivity.
  - exact H5.
  - intros cq sq nq Hf. unfold post_branch. rewrite Hf.
    destruct (truthy cq); [|destruct (truthy nq)]; discriminate.
  - intros d Hd. split; [apply H5; reflexivity|].
    apply (H1 d (JInt 0) Hd). reflexivity.
Qed.

Lemma post_questions_falsy_member_witness :
  serve (@post_questions (searching_driver (String.prefix "question 1"))
           (obj [("category", JInt 0); ("search", JStr "question 1")]))
        sample_store
  = serve (@post_questions (searching_driver (String.prefix "question 1"))
             (obj [("search", JStr "question 1")]))
          sample_store
  /\ status (fst (serve (@post_questions
                           (searching_driver (String.prefix "question 1"))
                           (obj [("category", JInt 0);
                                 ("search", JStr "question 1")]))
                        sample_store)) = 200.
Proof.
  pose (d := list_to_map [("category", JInt 0);
                          ("search", JStr "question 1")]
             : gmap string json).
  assert (Hd : d !! "category" = Some (JInt 0))
    by (vm_compute; reflexivity).
  pose proof (proj1 (@post_questions_falsy_member
                       (searching_driver (String.prefix "question 1"))
                       sample_store) d (JInt 0) Hd eq_refl) as H.
  split.
  - unfold serve. change (obj [("category", JInt 0);
                               ("search", JStr "question 1")])
      with (JObj d).
    rewrite H. vm_compute. reflexivity.
  - vm_compute. reflexivity.
Defined.

(** ** POST /quizzes *)

Lemma randint_range (seed : nat) (a b : Z) :
  a <= b -> a <= randint seed a b <= b.
Proof.
  intros H. unfold randint.
  pose proof (Z.mod_pos_bound (Z.of_nat seed) (b - a + 1)). lia.
Qed.

(** Every integer of the range is drawn for some state of the generator. *)
Lemma randint_onto (a b k : Z) :
  a <= k <= b -> exists seed, randint seed a b = k.
Proof.
  intros H. exists (Z.to_nat (k - a)). unfold randint.
  rewrite Z2Nat.id by lia. rewrite Z.mod_small by lia. lia.
Qed.

Lemma quiz_question_empty (seed : nat) : quiz_question seed [] = JNull.
Proof. reflexivity. Qed.

Lemma quiz_question_In (seed : nat) (l : list json) :
  l <> [] -> In (quiz_question seed l) l.
Proof.
  intros Hl. unfold quiz_question, py_index.
  destruct l as [|x t]; [contradiction|].
  cbn [is_empty negb]. apply nth_In.
  pose proof (randint_range seed 0 (Z.of_nat (length (x :: t)) - 1)).
  simpl length in *. lia.
Qed.

Lemma filterM_Ret {A} (f : A -> bool) (l : list A) :
  filterM (fun x => Ret (f x)) l = Ret (List.filter f l).
Proof.
  induction l as [|x t IH]; simpl; [reflexivity|].
  rewrite IH. destruct (f x); reflexivity.
Qed.

Lemma not_previous_list (prev : list json) (rows : list Question) :
  not_previous (JList prev) rows = Ret (List.filter (not_in_list prev) rows).
Proof. exact (filterM_Ret (not_in_list prev) rows). Qed.

Lemma py_eq_int_JInt (prev : list json) (i : Z) :
  existsb (py_eq_int i) prev = false -> ~ In (JInt i) prev.
Proof.
  intros H Hin.
  assert (E : existsb (py_eq_int i) prev = true).
  { apply existsb_exists. exists (JInt i). split; [exact Hin|].
    simpl. apply Z.eqb_refl. }
  congruence.
Qed.

Section Quizzes.

Context {D : Driver}.

Lemma get_quizzes_obj (seed : nat) (d quiz : gmap string json) (cid : json)
  (s : store) :
  d !! "quiz" = Some (JObj quiz) ->
  quiz !! "category_id" = Some cid ->
  get_quizzes seed (JObj d) s =
  (chosen <- quiz_select cid ;;
   let '(selection, category) := chosen in
   previous_questions <- lift (subscript (JObj quiz) "previous_questions") ;;
   window <- first_five selection ;;
   kept <- lift (not_previous previous_questions window) ;;
   let questions := map Question_format kept in
   let question := quiz_question seed questions in
   ret (200, quiz_body question previous_questions category)) s.
Proof.
  intros Hq Hc. unfold get_quizzes.
  unfold bind at 1. unfold lift at 1. unfold dict_get. rewrite Hq.
  simpl default.
  unfold bind at 1. rewrite (lookup_Some_truthy _ _ _ Hc).
  cbn [negb when ret].
  unfold bind at 1. unfold try_except, lift at 1, subscript at 1.
  rewrite Hc. reflexivity.
Qed.

Lemma quiz_select_all (cid : json) (s : store) :
  cid = JInt 0 \/ cid = JStr "0" ->
  quiz_select cid s = (Ret (Rows (questions s), JStr ""), s).
Proof. intros [->| ->]; reflexivity. Qed.

Lemma get_quizzes_list (seed : nat) (d quiz : gmap string json)
  (cid : json) (prev : list json) (s : store)
  (sel : selection) (cat : json) (rows : list Question) :
  d !! "quiz" = Some (JObj quiz) ->
  quiz !! "category_id" = Some cid ->
  quiz !! "previous_questions" = Some (JList prev) ->
  quiz_select cid s = (Ret (sel, cat), s) ->
  iterate sel s = (Ret rows, s) ->
  get_quizzes seed (JObj d) s =
  (Ret (200,
        quiz_body
          (quiz_question seed
             (map Question_format
                  (List.filter (not_in_list prev) (firstn 5 rows))))
          (JList prev) cat), s).
Proof.
  intros Hq Hc Hp Hsel Hrows.
  rewrite (get_quizzes_obj seed d quiz cid s Hq Hc).
  unfold bind at 1. rewrite Hsel.
  unfold bind at 1. unfold lift at 1, subscript. rewrite Hp.
  unfold bind at 1. unfold first_five, bind at 1. rewrite Hrows.
  unfold ret at 1. unfold bind, lift. rewrite not_previous_list.
  reflexivity.
Qed.

End Quizzes.

(** C1. For a quiz body with a [category_id] and a list of
    [previous_questions], and a selected set with rows [rows] for that
    [category_id], the response is a success; its question, when it is not
    null, is the formatted form of one of the first five rows whose
    identifier is not in [previous_questions]; and when each of the first
    five rows is in [previous_questions], the question is null. *)
Theorem get_quizzes_question
  {D : Driver} (seed : nat) (d quiz : gmap string json)
  (cid : json) (prev : list json) (s : store)
  (sel : selection) (cat : json) (rows : list Question) :
  d !! "quiz" = Some (JObj quiz) ->
  quiz !! "category_id" = Some cid ->
  quiz !! "previous_questions" = Some (JList prev) ->
  quiz_select cid s = (Ret (sel, cat), s) ->
  iterate sel s = (Ret rows, s) ->
  let r := fst (serve (get_quizzes seed (JObj d)) s) in
  let window := firstn 5 rows in
  status r = 200
  /\ field "success" (body r) = Some (JBool true)
  /\ exists question,
       field "question" (body r) = Some question
       /\ (question <> JNull ->
           exists q, In q window
                     /\ py_in (q_id q) (JList prev) = Ret false
                     /\ ~ In (JInt (q_id q)) prev
                     /\ question = Question_format q)
       /\ ((forall q, In q window -> py_in (q_id q) (JList prev) = Ret true)
           -> question = JNull).
Proof.
  intros Hq Hc Hp Hsel Hrows r window. subst r. unfold serve.
  rewrite (get_quizzes_list seed d quiz cid prev s sel cat rows)
    by assumption.
  fold window. cbn [fst respond status body].
  split; [reflexivity|]. split; [reflexivity|].
  set (kept := List.filter (not_in_list prev) window).
  exists (quiz_question seed (map Question_format kept)).
  split; [reflexivity|].
  destruct kept as [|k t] eqn:Hk.
  - split; [intros H; contradiction H; reflexivity|reflexivity].
  - assert (Hin : In (quiz_question seed (map Question_format (k :: t)))
                     (map Question_format (k :: t)))
      by (apply quiz_question_In; discriminate).
    apply in_map_iff in Hin. destruct Hin as [q [Hfmt Hqin]].
    rewrite <- Hk in Hqin. unfold kept in Hqin.
    apply filter_In in Hqin. destruct Hqin as [Hw Hn].
    unfold not_in_list in Hn. apply negb_true_iff in Hn.
    split.
    + intros _. exists q. split; [exact Hw|].
      split; [simpl; rewrite Hn; reflexivity|].
      split; [apply py_eq_int_JInt; exact Hn|]. symmetry. exact Hfmt.
    + intros Hall. specialize (Hall q Hw). simpl in Hall. congruence.
Qed.

Lemma get_quizzes_question_witness :
  status (fst (serve (@get_quizzes refusing_driver 7
                        (obj [("quiz",
                               obj [("category_id", JInt 1);
                                    ("previous_questions",
                                     JList [JInt 2; JInt 4])])]))
                     sample_store)) = 200.
Proof.
  apply (@get_quizzes_question refusing_driver 7 _
           (list_to_map [("category_id", JInt 1);
                         ("previous_questions", JList [JInt 2; JInt 4])])
           (JInt 1) [JInt 2; JInt 4] sample_store
           (@filter_by_category refusing_driver (JInt 1))
           (Category_format (mkCategory 1 "Science"))
           (in_category 1 (questions sample_store))).
  - vm_compute. reflexivity.
  - vm_compute. reflexivity.
  - vm_compute. reflexivity.
  - reflexivity.
  - reflexivity.
Defined.

Lemma get_quizzes_no_category_id
  {D : Driver} (seed : nat) (d : gmap string json) (s : store) :
  (forall quiz, d !! "quiz" = Some (JObj quiz) ->
                quiz !! "category_id" = None) ->
  get_quizzes seed (JObj d) s = (Abort Unprocessable, s).
Proof.
  intros H. unfold get_quizzes.
  unfold bind at 1. unfold lift at 1. unfold dict_get.
  destruct (d !! "quiz") as [v|]; simpl default; [|reflexivity].
  unfold bind at 1.
  destruct (truthy v) eqn:Hv; cbn [negb when ret abort]; [|reflexivity].
  unfold bind at 1. unfold try_except, lift at 1, subscript at 1.
  destruct v as [| | | | |quiz]; try reflexivity.
  rewrite (H quiz eq_refl). reflexivity.
Qed.

(** C5. A quiz body without a [category_id] is answered with the
    unprocessable envelope.  For a [category_id] that is 0 or the string
    "0" the selected set is the full list of questions and the category
    reported is the empty string: with a list of previous questions, the
    response is a success whose question is drawn from the first five
    questions of the store. *)
Theorem get_quizzes_category_id {D : Driver} (seed : nat) (s : store) :
  (forall d : gmap string json,
     (forall quiz, d !! "quiz" = Some (JObj quiz) ->
                   quiz !! "category_id" = None) ->
     serve (get_quizzes seed (JObj d)) s = (not_processable, s))
  /\ (forall cid : json,
        cid = JInt 0 \/ cid = JStr "0" ->
        quiz_select cid s = (Ret (Rows (questions s), JStr ""), s)
        /\ forall (d quiz : gmap string json) (prev : list json),
             d !! "quiz" = Some (JObj quiz) ->
             quiz !! "category_id" = Some cid ->
             quiz !! "previous_questions" = Some (JList prev) ->
             serve (get_quizzes seed (JObj d)) s =
             (mkResponse 200
                (quiz_body
                   (quiz_question seed
                      (map Question_format
                           (List.filter (not_in_list prev)
                                        (firstn 5 (questions s)))))
                   (JList prev) (JStr "")), s)).
Proof.
  split.
  - intros d H. unfold serve.
    rewrite get_quizzes_no_category_id by exact H. reflexivity.
  - intros cid Hcid. split; [apply quiz_select_all; exact Hcid|].
    intros d quiz prev Hq Hc Hp. unfold serve.
    rewrite (get_quizzes_list seed d quiz cid prev s
               (Rows (questions s)) (JStr "") (questions s));
      try assumption; try reflexivity.
    apply quiz_select_all. exact Hcid.
Qed.

Lemma get_quizzes_category_id_witness :
  serve (@get_quizzes refusing_driver 0
           (obj [("quiz", obj [("previous_questions", JList [])])]))
        sample_store
  = (not_processable, sample_store)
  /\ serve (@get_quizzes refusing_driver 0
              (obj [("quiz", obj [("previous_questions", JList []);
                                  ("category_id", JInt 0)])]))
           sample_store
     = (mkResponse 200
          (quiz_body (Question_format (sample_question 2 1))
                     (JList []) (JStr "")), sample_store).
Proof.
  split.
  - apply (proj1 (@get_quizzes_category_id refusing_driver 0 sample_store)).
    intros quiz H. vm_compute in H. injection H as <-.
    vm_compute. reflexivity.
  - apply (proj2 (proj2 (@get_quizzes_category_id refusing_driver 0
                           sample_store)
                        (JInt 0) (or_introl eq_refl))
                 _ (list_to_map [("previous_questions", JList []);
                                 ("category_id", JInt 0)]) []).
    + vm_compute. reflexivity.
    + vm_compute. reflexivity.
    + vm_compute. reflexivity.
Defined.

(** C10. For a [category_id] that is true in a boolean context, is not the
    string "0" and for which the lookup of the category finds nothing, the
    handler reads an attribute of the missing lookup result: the exception
    is caught by nobody and the response is the envelope of the internal
    error, status 500, not the not-found envelope. *)
Theorem get_quizzes_missing_category
  {D : Driver} (seed : nat) (d quiz : gmap string json) (cid : json)
  (s : store) :
  d !! "quiz" = Some (JObj quiz) ->
  quiz !! "category_id" = Some cid ->
  truthy cid = true ->
  py_eq_str cid "0" = false ->
  Category_query_get_json cid s = (Ret None, s) ->
  get_quizzes seed (JObj d) s = (Raise AttributeError, s)
  /\ serve (get_quizzes seed (JObj d)) s = (fatal_error, s)
  /\ status (fst (serve (get_quizzes seed (JObj d)) s)) = 500
  /\ fst (serve (get_quizzes seed (JObj d)) s) <> not_found.
Proof.
  intros Hq Hc Ht Hz Hget.
  assert (E : get_quizzes seed (JObj d) s = (Raise AttributeError, s)).
  { rewrite (get_quizzes_obj seed d quiz cid s Hq Hc).
    unfold bind at 1. unfold quiz_select. rewrite Ht, Hz.
    cbn [negb orb]. unfold bind at 1. rewrite Hget. reflexivity. }
  unfold serve. rewrite E. cbn [respond fst].
  repeat split. intros H. apply (f_equal status) in H. discriminate H.
Qed.

Lemma get_quizzes_missing_category_witness :
  serve (@get_quizzes refusing_driver 0
           (obj [("quiz", obj [("previous_questions", JList []);
                               ("category_id", JInt 99)])]))
        sample_store
  = (fatal_error, sample_store).
Proof.
  apply (@get_quizzes_missing_category refusing_driver 0 _
           (list_to_map [("previous_questions", JList []);
                         ("category_id", JInt 99)])
           (JInt 99) sample_store).
  - vm_compute. reflexivity.
  - vm_compute. reflexivity.
  - reflexivity.
  - reflexivity.
  - reflexivity.
Defined.

(** * Further properties of the handlers *)

(** ** Pages of GET /questions *)

Lemma clamp_index_step (len a b : Z) :
  0 <= len -> a <= b ->
  clamp_index len b - clamp_index len a <= b - a.
Proof.
  intros Hlen Hab. unfold clamp_index.
  destruct (Z.ltb_spec a 0), (Z.ltb_spec b 0); lia.
Qed.

Lemma py_slice_length {A} (l : list A) (start stop : Z) :
  start <= stop ->
  Z.of_nat (length (py_slice l start stop)) <= stop - start.
Proof.
  intros H. unfold py_slice.
  pose proof (clamp_index_step (Z.of_nat (length l)) start stop
                (Nat2Z.is_nonneg _) H) as Hc.
  pose proof (firstn_le_length
                (Z.to_nat (clamp_index (Z.of_nat (length l)) stop
                           - clamp_index (Z.of_nat (length l)) start))
                (skipn (Z.to_nat (clamp_index (Z.of_nat (length l)) start))
                       l)).
  lia.
Qed.

Lemma In_firstn {A} (x : A) (n : nat) (l : list A) :
  In x (firstn n l) -> In x l.
Proof.
  intros H. rewrite <- (firstn_skipn n l). apply in_or_app. left. exact H.
Qed.

Lemma In_skipn {A} (x : A) (n : nat) (l : list A) :
  In x (skipn n l) -> In x l.
Proof.
  intros H. rewrite <- (firstn_skipn n l). apply in_or_app. right. exact H.
Qed.

Lemma In_py_slice {A} (x : A) (l : list A) (start stop : Z) :
  In x (py_slice l start stop) -> In x l.
Proof.
  unfold py_slice. intros H. apply In_firstn in H. apply In_skipn in H.
  exact H.
Qed.

(** From page 1 on, a page is ten rows after the rows of the pages
    before. *)
Lemma py_slice_page {A} (l : list A) (page : Z) :
  1 <= page ->
  py_slice l ((page - 1) * QUESTIONS_PER_PAGE)
             ((page - 1) * QUESTIONS_PER_PAGE + QUESTIONS_PER_PAGE)
  = firstn 10 (skipn (10 * Z.to_nat (page - 1)) l).
Proof.
  intros Hp. unfold QUESTIONS_PER_PAGE.
  rewrite py_slice_window by lia. rewrite window_from_firstn_skipn.
  f_equal; [lia|]. f_equal. lia.
Qed.

Lemma firstn_plus {A} (n m : nat) (l : list A) :
  firstn (n + m) l = (firstn n l ++ firstn m (skipn n l))%list.
Proof.
  revert l. induction n as [|n IH]; intros l; [reflexivity|].
  destruct l as [|x t]; simpl.
  - rewrite firstn_nil. reflexivity.
  - rewrite IH. reflexivity.
Qed.

Lemma firstn_skipn_empty {A} (n m : nat) (l : list A) :
  (0 < m)%nat ->
  firstn m (skipn n l) = [] <-> (length l <= n)%nat.
Proof.
  intros Hm. split.
  - intros H. apply (f_equal (@length A)) in H.
    rewrite length_firstn, length_skipn in H. simpl in H. lia.
  - intros H. rewrite skipn_all2 by exact H. apply firstn_nil.
Qed.

Lemma py_slice_nil {A} (start stop : Z) : py_slice (@nil A) start stop = [].
Proof. unfold py_slice. rewrite skipn_nil, firstn_nil. reflexivity. Qed.

Lemma response_questions_get_questions (page_arg : option Z) (s : store) :
  let start := (default 1 page_arg - 1) * QUESTIONS_PER_PAGE in
  response_questions (fst (serve (get_questions page_arg) s))
  = map Question_format
        (py_slice (questions s) start (start + QUESTIONS_PER_PAGE)).
Proof.
  intros start. unfold serve. rewrite get_questions_unfold. fold start.
  destruct (questions s) as [|q t] eqn:E.
  - rewrite py_slice_nil. reflexivity.
  - cbn [is_empty].
    destruct (py_slice (q :: t) start (start + QUESTIONS_PER_PAGE));
      reflexivity.
Qed.

(** X1. A successful response of GET /questions lists between one and ten
    questions, each the formatted form of a question of the store, whatever
    the page number, negative ones included. *)
Theorem get_questions_page_size (page_arg : option Z) (s : store) :
  let r := fst (serve (get_questions page_arg) s) in
  status r = 200 ->
  exists rows,
    field "questions" (body r) = Some (JList (map Question_format rows))
    /\ (1 <= length rows <= 10)%nat
    /\ (forall q, In q rows -> In q (questions s)).
Proof.
  intros r. subst r. unfold serve. rewrite get_questions_unfold. simpl.
  set (start := (default 1 page_arg - 1) * QUESTIONS_PER_PAGE).
  destruct (is_empty (questions s)); [discriminate|].
  destruct (py_slice (questions s) start (start + QUESTIONS_PER_PAGE))
    as [|q t] eqn:E; [discriminate|].
  intros _. exists (q :: t). split; [reflexivity|]. split.
  - pose proof (py_slice_length (questions s) start
                  (start + QUESTIONS_PER_PAGE)) as H.
    rewrite E in H. unfold QUESTIONS_PER_PAGE in H. simpl length in *. lia.
  - intros x Hx. rewrite <- E in Hx. apply In_py_slice in Hx. exact Hx.
Qed.

Lemma get_questions_page_size_witness :
  exists rows,
    field "questions"
          (body (fst (serve (get_questions (Some (-1))) sample_store)))
    = Some (JList (map Question_format rows))
    /\ (1 <= length rows <= 10)%nat
    /\ (forall q, In q rows -> In q (questions sample_store)).
Proof.
  apply (get_questions_page_size (Some (-1)) sample_store).
  vm_compute. reflexivity.
Defined.

(** X2. From page 1 on, GET /questions succeeds exactly on the pages that
    start within the questions of the store: page [p] is a success when
    [(p-1)*10] is less than the number of questions and is not found
    otherwise. *)
Theorem get_questions_pages_available (page : Z) (s : store) :
  1 <= page ->
  let r := fst (serve (get_questions (Some page)) s) in
  (status r = 200 <-> (page - 1) * 10 < Z.of_nat (length (questions s)))
  /\ (r = not_found <-> Z.of_nat (length (questions s)) <= (page - 1) * 10).
Proof.
  intros Hp r. subst r. unfold serve. rewrite get_questions_unfold.
  simpl default. rewrite py_slice_page by exact Hp.
  destruct (questions s) as [|q t] eqn:E.
  - simpl. split; split; intros H; try reflexivity; try lia; discriminate.
  - cbn [is_empty].
    destruct (firstn 10 (skipn (10 * Z.to_nat (page - 1)) (q :: t)))
      as [|x r] eqn:F.
    + assert (H : (length (q :: t) <= 10 * Z.to_nat (page - 1))%nat)
        by (apply (firstn_skipn_empty _ 10%nat); [lia|exact F]).
      cbn [is_empty fst respond status].
      split; split; intros G; try reflexivity; try lia; discriminate.
    + assert (H : ~ (length (q :: t) <= 10 * Z.to_nat (page - 1))%nat).
      { intros G. apply (firstn_skipn_empty _ 10%nat) in G; [|lia].
        congruence. }
      cbn [is_empty fst respond status].
      split; split; intros G; try reflexivity; try lia.
      apply (f_equal status) in G. discriminate G.
Qed.

Lemma get_questions_pages_available_witness :
  status (fst (serve (get_questions (Some 2)) sample_store)) = 200
  /\ fst (serve (get_questions (Some 3)) sample_store) = not_found.
Proof.
  split.
  - apply (proj1 (get_questions_pages_available 2 sample_store
                    ltac:(lia))).
    vm_compute. reflexivity.
  - apply (proj2 (get_questions_pages_available 3 sample_store
                    ltac:(lia))).
    vm_compute. discriminate.
Defined.

Lemma pages_S (n : nat) :
  pages (S n) = (pages n ++ [Z.of_nat (S n)])%list.
Proof. unfold pages. rewrite seq_S, map_app. reflexivity. Qed.

Lemma pages_concat {A B} (f : A -> B) (l : list A) (n : nat) :
  flat_map (fun p => map f (py_slice l ((p - 1) * QUESTIONS_PER_PAGE)
                              ((p - 1) * QUESTIONS_PER_PAGE
                               + QUESTIONS_PER_PAGE)))
           (pages n)
  = map f (firstn (10 * n) l).
Proof.
  induction n as [|n IH]; [reflexivity|].
  rewrite pages_S, flat_map_app, IH. cbn [flat_map].
  rewrite app_nil_r, py_slice_page by lia.
  replace (Z.to_nat (Z.of_nat (S n) - 1)) with n by lia.
  replace (10 * S n)%nat with (10 * n + 10)%nat by lia.
  rewrite firstn_plus, map_app. reflexivity.
Qed.

(** X3. Reading the pages 1 to [n] of GET /questions one after the other
    gives every question of the store once, in the order of the store, as
    soon as [n] pages are enough to hold them; the pages past the last one,
    which are not found, add nothing. *)
Theorem get_questions_pages_cover (n : nat) (s : store) :
  (length (questions s) <= 10 * n)%nat ->
  flat_map (fun p => response_questions
                       (fst (serve (get_questions (Some p)) s)))
           (pages n)
  = map Question_format (questions s).
Proof.
  intros H.
  rewrite (flat_map_ext _
             (fun p => map Question_format
                         (py_slice (questions s)
                                   ((p - 1) * QUESTIONS_PER_PAGE)
                                   ((p - 1) * QUESTIONS_PER_PAGE
                                    + QUESTIONS_PER_PAGE))))
    by (intros p; apply (response_questions_get_questions (Some p))).
  rewrite pages_concat, firstn_all2 by exact H. reflexivity.
Qed.

Lemma get_questions_pages_cover_witness :
  flat_map (fun p => response_questions
                       (fst (serve (get_questions (Some p)) sample_store)))
           (pages 3)
  = map Question_format (questions sample_store).
Proof.
  apply (get_questions_pages_cover 3 sample_store).
  vm_compute. repeat constructor.
Defined.

(** ** GET /categories *)

Lemma get_categories_unfold (s : store) :
  get_categories s =
  (if is_empty (categories s) then Abort NotFound
   else Ret (200, obj [("success", JBool true);
                       ("count",
                        JInt (Z.of_nat
                                (length (map Category_format
                                             (categories s)))));
                       ("categories",
                        JList (map Category_format (categories s)))]), s).
Proof.
  unfold get_categories, bind, Category_query_all, when.
  destruct (is_empty (categories s)); reflexivity.
Qed.

(** X4. GET /categories is not found exactly when the store has no
    category.  Otherwise it is a success, its [count] is the number of
    categories, and its [categories] are those that every successful page
    of GET /questions lists; with no category, a page of GET /questions is
    still a success, with an empty list of categories. *)
Theorem get_categories_spec (s : store) :
  let r := fst (serve get_categories s) in
  (r = not_found <-> categories s = [])
  /\ (categories s <> [] ->
      status r = 200
      /\ field "count" (body r)
         = Some (JInt (Z.of_nat (length (categories s))))
      /\ field "categories" (body r)
         = Some (JList (map Category_format (categories s))))
  /\ (forall page_arg,
        status (fst (serve (get_questions page_arg) s)) = 200 ->
        field "categories" (body (fst (serve (get_questions page_arg) s)))
        = Some (JList (map Category_format (categories s)))).
Proof.
  intros r. subst r. unfold serve. rewrite get_categories_unfold.
  split; [|split].
  - destruct (categories s); simpl; split; intros H; try reflexivity;
      try discriminate H.
  - intros H. destruct (categories s) as [|c t]; [contradiction|].
    cbn [is_empty fst respond status body]. rewrite length_map.
    repeat split; reflexivity.
  - intros page_arg. rewrite get_questions_unfold. simpl.
    destruct (is_empty (questions s)); [discriminate|].
    destruct (is_empty _); [discriminate|]. reflexivity.
Qed.

Lemma get_categories_spec_witness :
  field "count" (body (fst (serve get_categories sample_store)))
  = Some (JInt 3).
Proof.
  apply (proj1 (proj2 (get_categories_spec sample_store))).
  discriminate.
Defined.

(** ** Handlers that only read *)

Lemma read_only_ret {A} (a : A) : read_only (ret a).
Proof. intros s. reflexivity. Qed.

Lemma read_only_abort {A} (e : http_error) : read_only (@abort A e).
Proof. intros s. reflexivity. Qed.

Lemma read_only_lift {A} (r : result A) : read_only (lift r).
Proof. intros s. reflexivity. Qed.

Lemma read_only_bind {A B} (m : M A) (k : A -> M B) :
  read_only m -> (forall a, read_only (k a)) -> read_only (bind m k).
Proof.
  intros Hm Hk s. unfold bind. specialize (Hm s).
  destruct (m s) as [[a|e|x] s']; simpl in Hm; subst s'; [|reflexivity..].
  apply Hk.
Qed.

Lemma read_only_try_except {A} (m h : M A) :
  read_only m -> read_only h -> read_only (try_except m h).
Proof.
  intros Hm Hh s. unfold try_except. specialize (Hm s).
  destruct (m s) as [[a|e|x] s']; simpl in Hm; subst s';
    [reflexivity|apply Hh..].
Qed.

Lemma read_only_when (c : bool) (m : M unit) :
  read_only m -> read_only (when c m).
Proof. intros H. destruct c; [exact H|apply read_only_ret]. Qed.

Lemma read_only_iterate (sel : selection) : read_only (iterate sel).
Proof. intros s. destruct sel; reflexivity. Qed.

Lemma read_only_attr {A B} (x : option A) (f : A -> B) :
  read_only (attr x f).
Proof. intros s. destruct x; reflexivity. Qed.

Lemma read_only_serve (h : M (Z * json)) (s : store) :
  read_only h -> snd (serve h s) = s.
Proof.
  intros H. unfold serve. specialize (H s). destruct (h s). exact H.
Qed.

Create HintDb read_only.

#[local] Hint Resolve read_only_ret read_only_abort read_only_lift
  read_only_when read_only_iterate read_only_attr : read_only.

Ltac read_only_step :=
  first [ apply read_only_bind; [|intros ?]
        | apply read_only_try_except
        | match goal with
          | |- read_only (let '(_, _) := ?p in _) => destruct p
          | |- read_only (match ?x with _ => _ end) => destruct x
          | |- read_only (if ?c then _ else _) => destruct c
          end
        | solve [auto with read_only]
        | solve [intros ?; reflexivity] ].

Section ReadOnly.

Context {D : Driver}.

Lemma read_only_get_questions (page_arg : option Z) :
  read_only (get_questions page_arg).
Proof. unfold get_questions. repeat read_only_step. Qed.

Lemma read_only_get_categories : read_only get_categories.
Proof. unfold get_categories. repeat read_only_step. Qed.

Lemma read_only_get_question_by_category_id (category_id : Z) :
  read_only (get_question_by_category_id category_id).
Proof. unfold get_question_by_category_id. repeat read_only_step. Qed.

Lemma read_only_quiz_select (category_id : json) :
  read_only (quiz_select category_id).
Proof. unfold quiz_select. repeat read_only_step. Qed.

Lemma read_only_get_quizzes (seed : nat) (body : json) :
  read_only (get_quizzes seed body).
Proof.
  unfold get_quizzes, first_five.
  repeat first [ apply read_only_quiz_select | read_only_step ].
Qed.

End ReadOnly.

(** X5. The handlers of GET /questions, GET /categories,
    GET /categories/<id>/questions and POST /quizzes never change the
    store, whatever the request and whatever the response. *)
Theorem reading_handlers_keep_store {D : Driver} (s : store) :
  (forall page_arg, snd (serve (get_questions page_arg) s) = s)
  /\ snd (serve get_categories s) = s
  /\ (forall category_id,
        snd (serve (get_question_by_category_id category_id) s) = s)
  /\ (forall seed body, snd (serve (get_quizzes seed body) s) = s).
Proof.
  repeat split; intros; apply read_only_serve.
  - apply read_only_get_questions.
  - apply read_only_get_categories.
  - apply read_only_get_question_by_category_id.
  - apply read_only_get_quizzes.
Qed.

(** ** Questions of a category, by the path *)

Lemma find_category_Some (id : Z) (l : list Category) (c : Category) :
  find (fun x => c_id x =? id) l = Some c -> In c l /\ c_id c = id.
Proof.
  intros H. apply find_some in H. destruct H as [Hin Hid].
  split; [exact Hin|]. apply Z.eqb_eq. exact Hid.
Qed.

Lemma find_category_None (id : Z) (l : list Category) :
  find (fun x => c_id x =? id) l = None <->
  (forall c, In c l -> c_id c <> id).
Proof.
  split.
  - intros H c Hin E. apply (find_none _ _ H) in Hin.
    apply Z.eqb_neq in Hin. contradiction.
  - intros H. destruct (find _ l) as [c|] eqn:E; [|reflexivity].
    apply find_category_Some in E. destruct E as [Hin Hid].
    exfalso. exact (H c Hin Hid).
Qed.

(** X6. GET /categories/<id>/questions never answers with the not-found
    envelope.  It is a success exactly when the store has a category of
    that identifier, and the internal error when it has none: the
    attribute [id] is then read from a lookup that found nothing. *)
Theorem get_question_by_category_id_outcome
  {D : Driver} (category_id : Z) (s : store) :
  let r := fst (serve (get_question_by_category_id category_id) s) in
  r <> not_found
  /\ (status r = 200 <->
      exists c, In c (categories s) /\ c_id c = category_id)
  /\ ((forall c, In c (categories s) -> c_id c <> category_id) ->
      get_question_by_category_id category_id s = (Raise AttributeError, s)
      /\ r = fatal_error).
Proof.
  intros r. subst r. unfold serve.
  rewrite get_question_by_category_id_unfold.
  destruct (find _ (categories s)) as [c|] eqn:E.
  - apply find_category_Some in E. destruct E as [Hin Hid].
    cbn [fst respond status]. split; [|split].
    + intros H. apply (f_equal status) in H. discriminate H.
    + split; [intros _; exists c; split; assumption|reflexivity].
    + intros H. exfalso. exact (H c Hin Hid).
  - cbn [fst respond]. split; [|split].
    + intros H. apply (f_equal status) in H. discriminate H.
    + split; [discriminate|]. intros [c [Hin Hid]].
      exfalso. exact (proj1 (find_category_None _ _) E c Hin Hid).
    + intros _. split; reflexivity.
Qed.

Lemma get_question_by_category_id_outcome_witness :
  fst (serve (@get_question_by_category_id refusing_driver 7) sample_store)
  = fatal_error.
Proof.
  apply (proj2 (proj2 (@get_question_by_category_id_outcome
                         refusing_driver 7 sample_store))).
  intros c Hin. vm_compute in Hin.
  destruct Hin as [<-|[<-|[<-|[]]]]; discriminate.
Defined.

(** X7. When GET /categories/<id>/questions succeeds, its questions are
    the questions of the store whose category is the identifier of the
    path, in the order of the store, [count] is their number, which may be
    0, and [current_category] is the name of a category of that
    identifier. *)
Theorem get_question_by_category_id_body
  {D : Driver} (category_id : Z) (s : store) :
  let r := fst (serve (get_question_by_category_id category_id) s) in
  status r = 200 ->
  field "questions" (body r)
  = Some (JList (map Question_format
                     (in_category category_id (questions s))))
  /\ field "count" (body r)
     = Some (JInt (Z.of_nat
                     (length (in_category category_id (questions s)))))
  /\ exists c, In c (categories s) /\ c_id c = category_id
               /\ field "current_category" (body r) = Some (JStr (c_type c)).
Proof.
  intros r. subst r. unfold serve.
  rewrite get_question_by_category_id_unfold.
  destruct (find _ (categories s)) as [c|] eqn:E; [|discriminate].
  apply find_category_Some in E. destruct E as [Hin Hid].
  intros _. cbn [fst respond body]. rewrite length_map, Hid.
  split; [reflexivity|]. split; [reflexivity|].
  exists c. repeat split; assumption.
Qed.

Lemma get_question_by_category_id_body_witness :
  field "count"
        (body (fst (serve (@get_question_by_category_id refusing_driver 2)
                          sample_store)))
  = Some (JInt 5).
Proof.
  apply (@get_question_by_category_id_body refusing_driver 2 sample_store).
  vm_compute. reflexivity.
Defined.

(** ** More on DELETE /questions/<id> *)

Lemma without_length (l : list Question) (q : Question) :
  List.NoDup (map q_id l) -> In q l ->
  S (length (without (q_id q) l)) = length l.
Proof.
  induction l as [|x t IH]; intros Hnd Hin; [contradiction|].
  simpl in Hnd. inversion Hnd as [|? ? Hx Ht]; subst.
  simpl. destruct Hin as [->|Hin].
  - rewrite Z.eqb_refl. simpl. f_equal.
    rewrite without_absent; [reflexivity|].
    intros r Hr E. apply Hx. rewrite <- E. apply in_map. exact Hr.
  - destruct (Z.eqb_spec (q_id x) (q_id q)) as [E|_]; simpl.
    + exfalso. apply Hx. rewrite E. apply in_map. exact Hin.
    + f_equal. apply IH; assumption.
Qed.

(** X8. Deleting a question that the store holds answers according to what
    is left: with other questions left, a success of status 200 that lists
    them, in the order of the store, with their number as [count] (one
    less than before, identifiers being unique); with nothing left, the
    not-found envelope, although the question is deleted. *)
Theorem delete_question_response (id : Z) (s : store) (q : Question) :
  fst (Question_query_get id s) = Ret (Some q) ->
  let r := fst (serve (delete_question id) s) in
  let rest := without id (questions s) in
  questions (snd (serve (delete_question id) s)) = rest
  /\ (rest = [] -> r = not_found)
  /\ (rest <> [] ->
      status r = 200
      /\ field "questions" (body r) = Some (JList (map Question_format rest))
      /\ field "count" (body r) = Some (JInt (Z.of_nat (length rest))))
  /\ (List.NoDup (map q_id (questions s)) ->
      S (length rest) = length (questions s)).
Proof.
  unfold Question_query_get. simpl. intros Hq. injection Hq as Hq.
  destruct (find_by_id_Some _ _ _ Hq) as [Hin Hid].
  unfold serve. rewrite delete_question_unfold, Hq, Hid. simpl.
  split; [reflexivity|]. split; [|split].
  - intros ->. reflexivity.
  - intros H. destruct (without id (questions s)) as [|x t];
      [contradiction|].
    cbn [is_empty respond status body]. rewrite length_map.
    repeat split; reflexivity.
  - intros Hnd. rewrite <- Hid. apply without_length; assumption.
Qed.

Lemma delete_question_response_witness :
  status (fst (serve (delete_question 9) sample_store)) = 200
  /\ field "count" (body (fst (serve (delete_question 9) sample_store)))
     = Some (JInt 11).
Proof.
  pose proof (delete_question_response 9 sample_store (sample_question 9 2)
                ltac:(vm_compute; reflexivity)) as [_ [_ [H _]]].
  specialize (H ltac:(vm_compute; discriminate)).
  destruct H as [H1 [_ H3]]. split; [exact H1|exact H3].
Defined.

(** X9. Deleting the same identifier a second time is not found and
    changes nothing: after a DELETE of an identifier, whatever its
    response was, the store holds no question of that identifier. *)
Theorem delete_question_twice (id : Z) (s : store) :
  let s1 := snd (serve (delete_question id) s) in
  fst (Question_query_get id s1) = Ret None
  /\ serve (delete_question id) s1 = (not_found, s1).
Proof.
  intros s1.
  assert (H : find (fun r => q_id r =? id) (questions s1) = None).
  { subst s1. unfold serve. rewrite delete_question_unfold.
    destruct (find _ (questions s)) as [q|] eqn:E; simpl.
    - apply find_by_id_Some in E. destruct E as [_ ->].
      apply find_by_id_None. intros x Hx. apply In_without in Hx. tauto.
    - exact E. }
  split.
  - unfold Question_query_get. simpl. rewrite H. reflexivity.
  - unfold serve. rewrite delete_question_unfold, H. reflexivity.
Qed.

(** ** More on POST /questions *)

Section PostQuestionsArms.

Context {D : Driver}.

Lemma post_questions_on_category_first (cq sq nq : json) :
  truthy cq = true ->
  post_questions_on cq sq nq = post_questions_on cq JNull JNull.
Proof.
  intros H. unfold post_questions_on, post_branch. rewrite H. reflexivity.
Qed.

Lemma post_questions_on_search_second (cq sq nq : json) :
  truthy cq = false -> truthy sq = true ->
  post_questions_on cq sq nq = post_questions_on JNull sq JNull.
Proof.
  intros Hc Hs. unfold post_questions_on, post_branch. rewrite Hc, Hs.
  reflexivity.
Qed.

Lemma post_questions_on_category_int (c : Z) (sq nq : json) (s : store) :
  c <> 0 ->
  post_questions_on (JInt c) sq nq s =
  (let rows := in_category c (questions s) in
   if is_empty rows then Abort NotFound
   else Ret (200, obj [("success", JBool true);
                       ("questions", JList (map Question_format rows));
                       ("count",
                        JInt (Z.of_nat
                                (length (map Question_format rows))))]),
   s).
Proof.
  intros Hc. unfold post_questions_on, post_branch.
  assert (Ht : truthy (JInt c) = true)
    by (simpl; apply negb_true_iff, Z.eqb_neq; exact Hc).
  rewrite Ht. unfold bind, when, iterate, filter_by_category. simpl.
  fold (in_category c (questions s)).
  destruct (in_category c (questions s)); reflexivity.
Qed.

End PostQuestionsArms.

(** X10. The members of the body of POST /questions are tried in the order
    category, search, question, and the first that is true in a boolean
    context decides alone: with such a [category] the response is that of
    the body with only this [category], and with no such [category] but
    such a [search], that of the body with only this [search]. *)
Theorem post_questions_precedence
  {D : Driver} (d : gmap string json) (s : store) :
  (forall cq, d !! "category" = Some cq -> truthy cq = true ->
     post_questions (JObj d) s
     = post_questions (JObj {[ "category" := cq ]}) s)
  /\ (forall sq, truthy (default JNull (d !! "category")) = false ->
        d !! "search" = Some sq -> truthy sq = true ->
        post_questions (JObj d) s
        = post_questions (JObj {[ "search" := sq ]}) s).
Proof.
  split.
  - intros cq Hq Ht. rewrite !post_questions_obj.
    rewrite lookup_singleton_eq, !lookup_singleton_ne by discriminate.
    rewrite Hq. simpl default.
    rewrite post_questions_on_category_first by exact Ht. reflexivity.
  - intros sq Hc Hq Ht. rewrite !post_questions_obj.
    rewrite lookup_singleton_eq, !lookup_singleton_ne by discriminate.
    rewrite Hq. simpl default.
    rewrite post_questions_on_search_second by assumption. reflexivity.
Qed.

Lemma post_questions_precedence_witness :
  @post_questions refusing_driver
    (obj [("category", JInt 1); ("search", JStr "question");
          ("question", JStr "anything")]) sample_store
  = @post_questions refusing_driver
      (JObj {[ "category" := JInt 1 ]}) sample_store.
Proof.
  apply (proj1 (@post_questions_precedence refusing_driver _ sample_store)).
  - vm_compute. reflexivity.
  - reflexivity.
Defined.

(** X11. For a [category] that is an integer other than 0, POST /questions
    is not found exactly when no question of the store has that category;
    otherwise it is a success of status 200 with these questions, in the
    order of the store, and their number as [count].  The store is left as
    it was. *)
Theorem post_questions_by_category
  {D : Driver} (d : gmap string json) (c : Z) (s : store) :
  d !! "category" = Some (JInt c) -> c <> 0 ->
  let r := fst (serve (post_questions (JObj d)) s) in
  let rows := in_category c (questions s) in
  snd (serve (post_questions (JObj d)) s) = s
  /\ (r = not_found <-> rows = [])
  /\ (rows <> [] ->
      status r = 200
      /\ field "questions" (body r) = Some (JList (map Question_format rows))
      /\ field "count" (body r) = Some (JInt (Z.of_nat (length rows)))).
Proof.
  intros Hd Hc. unfold serve. rewrite post_questions_obj, Hd. simpl default.
  rewrite post_questions_on_category_int by exact Hc. simpl.
  split; [reflexivity|].
  destruct (in_category c (questions s)) as [|x t].
  - split; [split; reflexivity|]. intros H. contradiction.
  - cbn [is_empty respond status body]. rewrite length_map. split.
    + split; intros H; discriminate H.
    + intros _. repeat split; reflexivity.
Qed.

Lemma post_questions_by_category_witness :
  fst (serve (@post_questions refusing_driver (obj [("category", JInt 3)]))
             sample_store)
  = not_found.
Proof.
  assert (Hd : (list_to_map [("category", JInt 3)] : gmap string json)
               !! "category" = Some (JInt 3)) by (vm_compute; reflexivity).
  apply (proj1 (proj2 (@post_questions_by_category refusing_driver _ 3
                         sample_store Hd ltac:(lia)))).
  vm_compute. reflexivity.
Defined.

(** X12. A body that is not a JSON object (a list, a string, a number,
    [null], ...) has no [get]: POST /questions and POST /quizzes both answer
    with the internal error, and the store is left as it was. *)
Theorem post_body_not_an_object
  {D : Driver} (seed : nat) (body : json) (s : store) :
  (forall d, body <> JObj d) ->
  serve (post_questions body) s = (fatal_error, s)
  /\ serve (get_quizzes seed body) s = (fatal_error, s).
Proof.
  intros H. destruct body as [| | | | |d]; try (split; reflexivity).
  exfalso. exact (H d eq_refl).
Qed.

Lemma post_body_not_an_object_witness :
  serve (@post_questions refusing_driver (JList [JInt 1])) sample_store
  = (fatal_error, sample_store).
Proof.
  apply (proj1 (@post_body_not_an_object refusing_driver 0 (JList [JInt 1])
                  sample_store ltac:(discriminate))).
Defined.

Section CreateQuestion.

Context {D : Driver}.

(** The store after the insertion of [row]. *)
Lemma create_question_cases (v : json) (s : store) :
  (exists r, create_question v s = (r, s) /\ forall x, r <> Ret x)
  \/ (exists row,
        q_id row = next_id s
        /\ create_question v s =
           (Ret (Rows (questions s ++ [row]), Some row),
            mkStore (questions s ++ [row]) (categories s) (next_id s + 1))).
Proof.
  unfold create_question, bind, try_except, lift.
  destruct (read_new_question v) as [[[[t a] d] c]|e|x];
    [|left; eexists; split; [reflexivity|discriminate]..].
  unfold Question_query_filter_by_question_all.
  destruct (bind_text t) as [p|e|x]; simpl;
    [|left; eexists; split; [reflexivity|discriminate]..].
  destruct (List.filter _ (questions s)); simpl;
    [|left; eexists; split; [reflexivity|discriminate]].
  destruct (sendable t); simpl;
    [|left; eexists; split; [reflexivity|discriminate]].
  unfold Question_insert.
  destruct (row_values t a d c) as [[[[q' a'] c'] d']|]; simpl.
  - right. eexists. split; [|reflexivity]. reflexivity.
  - left. eexists. split; [reflexivity|discriminate].
Qed.

Lemma create_question_typed (nq : gmap string json) (s : store)
  (t a : string) (dif c : Z) :
  nq !! "question" = Some (JStr t) -> nq !! "answer" = Some (JStr a) ->
  nq !! "difficulty" = Some (JInt dif) -> nq !! "category" = Some (JInt c) ->
  create_question (JObj nq) s =
  if is_empty (List.filter (fun r => String.eqb t (q_question r))
                           (questions s))
  then if binds_text t
       then if accepts_row t a c dif
            then let row := mkQuestion (next_id s) t a c dif in
                 (Ret (Rows (questions s ++ [row]), Some row),
                  mkStore (questions s ++ [row]) (categories s)
                          (next_id s + 1))
            else (Abort Unprocessable, s)
       else (Raise StoreError, s)
  else (Abort Conflict, s).
Proof.
  intros Ht Ha Hd Hc. unfold create_question, bind, try_except, lift.
  rewrite (read_new_question_complete _ _ _ _ _ Ht Ha Hd Hc).
  unfold Question_query_filter_by_question_all, bind_text, sendable.
  destruct (List.filter _ (questions s)); [|reflexivity].
  cbn [is_empty andb]. destruct (binds_text t); [|reflexivity].
  cbn [negb when ret]. unfold Question_insert, row_values.
  destruct (accepts_row t a c dif); reflexivity.
Qed.

(** The response to a creation that has inserted [row]. *)
Lemma post_questions_created (rows : list Question) (row : Question)
  (s' : store) :
  (arm <- ret (Rows (rows ++ [row]), Some row) ;;
   let '(selection, created) := arm in
   when (negb (selection_truthy selection)) (abort NotFound) ;;;
   rows <- iterate selection ;;
   let questions := map Question_format rows in
   when (is_empty questions) (abort NotFound) ;;;
   match created with
   | Some question =>
       ret (201, obj [("success", JBool true);
                      ("questions", JList questions);
                      ("created", JInt (q_id question));
                      ("count", JInt (Z.of_nat (length questions)))])
   | None =>
       ret (200, obj [("success", JBool true);
                      ("questions", JList questions);
                      ("count", JInt (Z.of_nat (length questions)))])
   end) s'
  = (Ret (201, obj [("success", JBool true);
                    ("questions",
                     JList (map Question_format (rows ++ [row])));
                    ("created", JInt (q_id row));
                    ("count",
                     JInt (Z.of_nat
                             (length (map Question_format
                                          (rows ++ [row])))))]), s').
Proof.
  unfold bind, ret, iterate. 
  destruct (rows ++ [row])%list as [|x t] eqn:E.
  - destruct rows; discriminate E.
  - reflexivity.
Qed.

Lemma filter_text_empty (t : string) (l : list Question) :
  (forall q, In q l -> q_question q <> t) ->
  List.filter (fun r => String.eqb t (q_question r)) l = [].
Proof.
  intros H. induction l as [|x r IH]; [reflexivity|]. simpl.
  destruct (String.eqb_spec t (q_question x)) as [E|_].
  - exfalso. apply (H x); [left; reflexivity|congruence].
  - apply IH. intros q Hq. apply H. right. exact Hq.
Qed.

End CreateQuestion.

Section PostQuestionsStore.

Context {D : Driver}.

Lemma post_questions_on_inserted (cq sq nq : json) (s : store)
  (row : Question) :
  truthy cq = false -> truthy sq = false -> truthy nq = true ->
  create_question nq s
  = (Ret (Rows (questions s ++ [row]), Some row), with_row s row) ->
  post_questions_on cq sq nq s
  = (Ret (201, created_body (questions s ++ [row]) row), with_row s row).
Proof.
  intros Hc Hs Hn H. rewrite post_questions_on_create by assumption.
  unfold bind at 1. rewrite H.
  exact (post_questions_created (questions s) row (with_row s row)).
Qed.

Lemma post_questions_on_not_inserted (cq sq nq : json) (s : store)
  (r : result (selection * option Question)) :
  truthy cq = false -> truthy sq = false -> truthy nq = true ->
  create_question nq s = (r, s) -> (forall x, r <> Ret x) ->
  exists r', post_questions_on cq sq nq s = (r', s)
             /\ forall x, r' <> Ret x.
Proof.
  intros Hc Hs Hn H Hr. rewrite post_questions_on_create by assumption.
  unfold bind at 1. rewrite H.
  destruct r as [x|e|x].
  - exfalso. exact (Hr x eq_refl).
  - eexists. split; [reflexivity|discriminate].
  - eexists. split; [reflexivity|discriminate].
Qed.

(** A query arm reads, and answers 200, not found or the internal error. *)
Lemma post_questions_on_query (sel : selection) (s : store) :
  selection_truthy sel = true ->
  exists r',
    (arm <- (when (negb (selection_truthy sel)) (abort NotFound) ;;;
             ret (sel, @None Question)) ;;
     let '(selection, created) := arm in
     when (negb (selection_truthy selection)) (abort NotFound) ;;;
     rows <- iterate selection ;;
     let questions := map Question_format rows in
     when (is_empty questions) (abort NotFound) ;;;
     match created with
     | Some question =>
         ret (201, obj [("success", JBool true);
                        ("questions", JList questions);
                        ("created", JInt (q_id question));
                        ("count", JInt (Z.of_nat (length questions)))])
     | None =>
         ret (200, obj [("success", JBool true);
                        ("questions", JList questions);
                        ("count", JInt (Z.of_nat (length questions)))])
     end) s = (r', s)
    /\ forall b, r' <> Ret (201, b).
Proof.
  intros Ht. unfold bind, when, ret, abort. rewrite Ht. simpl.
  rewrite Ht. simpl.
  pose proof (read_only_iterate sel s) as Hs.
  destruct (iterate sel s) as [[rows|e|x] s']; simpl in Hs; subst s'.
  - destruct (map Question_format rows); simpl;
      eexists; (split; [reflexivity|discriminate]).
  - eexists. split; [reflexivity|discriminate].
  - eexists. split; [reflexivity|discriminate].
Qed.

Lemma post_questions_on_cases (cq sq nq : json) (s : store) :
  (exists r', post_questions_on cq sq nq s = (r', s)
              /\ forall b, r' <> Ret (201, b))
  \/ (exists row,
        q_id row = next_id s
        /\ post_questions_on cq sq nq s
           = (Ret (201, created_body (questions s ++ [row]) row),
              with_row s row)).
Proof.
  destruct (truthy cq) eqn:Hc; [|destruct (truthy sq) eqn:Hs;
                                  [|destruct (truthy nq) eqn:Hn]].
  - left. unfold post_questions_on, post_branch. rewrite Hc.
    apply post_questions_on_query. reflexivity.
  - left. unfold post_questions_on, post_branch. rewrite Hc, Hs.
    apply post_questions_on_query. reflexivity.
  - destruct (create_question_cases nq s) as [[r [H Hr]]|[row [Hid H]]].
    + left.
      destruct (post_questions_on_not_inserted cq sq nq s r Hc Hs Hn H Hr)
        as [r' [E Hr']].
      exists r'. split; [exact E|]. intros b. apply Hr'.
    + right. exists row. split; [exact Hid|].
      apply post_questions_on_inserted; assumption.
  - left. unfold post_questions_on, post_branch. rewrite Hc, Hs, Hn.
    eexists. split; [reflexivity|discriminate].
Qed.

End PostQuestionsStore.

Lemma respond_201 (r : result (Z * json)) :
  status (respond r) = 201 -> exists b, r = Ret (201, b).
Proof.
  destruct r as [[code b]|[]|x]; simpl; try discriminate.
  intros ->. exists b. reflexivity.
Qed.

(** X13. POST /questions changes the store only when it answers 201.  It
    then has added one question at the end of the questions of the store,
    under the next identifier of the store; [created] is that identifier,
    [count] the number of questions after the insertion, and the questions
    of the response are those of the store after it.  With any other
    status the store is left as it was. *)
Theorem post_questions_store_change
  {D : Driver} (body_ : json) (s : store) :
  let r := fst (serve (post_questions body_) s) in
  let s' := snd (serve (post_questions body_) s) in
  (status r <> 201 -> s' = s)
  /\ (status r = 201 ->
      exists row,
        q_id row = next_id s
        /\ s' = with_row s row
        /\ field "created" (body r) = Some (JInt (next_id s))
        /\ field "count" (body r)
           = Some (JInt (Z.of_nat (length (questions s)) + 1))
        /\ field "questions" (body r)
           = Some (JList (map Question_format (questions s')))).
Proof.
  destruct body_ as [| | | | |d];
    try (split; [reflexivity|intros H; discriminate H]).
  rewrite post_questions_obj. unfold serve.
  destruct (post_questions_on_cases
              (default JNull (d !! "category"))
              (default JNull (d !! "search"))
              (default JNull (d !! "question")) s)
    as [[r' [E Hr']]|[row [Hid E]]]; rewrite E; simpl.
  - split; [reflexivity|]. intros H. apply respond_201 in H.
    destruct H as [b ->]. exfalso. exact (Hr' b eq_refl).
  - split; [intros H; contradiction H; reflexivity|]. intros _.
    exists row. split; [exact Hid|]. split; [reflexivity|].
    rewrite <- Hid. unfold created_body.
    split; [reflexivity|]. split; [|reflexivity].
    cbn [field]. unfold obj.
    rewrite length_map, length_app. simpl length.
    replace (Z.of_nat (length (questions s) + 1))
      with (Z.of_nat (length (questions s)) + 1) by lia.
    reflexivity.
Qed.

Lemma post_questions_store_change_witness :
  snd (serve (@post_questions refusing_driver
                (obj [("search", JStr "question")])) sample_store)
  = sample_store.
Proof.
  apply (proj1 (@post_questions_store_change refusing_driver
                  (obj [("search", JStr "question")]) sample_store)).
  vm_compute. discriminate.
Defined.

Section CreateTyped.

Context {D : Driver}.

(** The create arm for a question of two strings and two integers. *)
Lemma post_questions_typed (d nq : gmap string json) (s : store)
  (t a : string) (dif c : Z) :
  truthy (default JNull (d !! "category")) = false ->
  truthy (default JNull (d !! "search")) = false ->
  d !! "question" = Some (JObj nq) ->
  nq !! "question" = Some (JStr t) -> nq !! "answer" = Some (JStr a) ->
  nq !! "difficulty" = Some (JInt dif) -> nq !! "category" = Some (JInt c) ->
  post_questions (JObj d) s =
  if is_empty (List.filter (fun r => String.eqb t (q_question r))
                           (questions s))
  then if binds_text t
       then if accepts_row t a c dif
            then let row := mkQuestion (next_id s) t a c dif in
                 (Ret (201, created_body (questions s ++ [row]) row),
                  with_row s row)
            else (Abort Unprocessable, s)
       else (Raise StoreError, s)
  else (Abort Conflict, s).
Proof.
  intros Hc Hs Hq Ht Ha Hd Hcat.
  rewrite post_questions_obj, Hq. simpl default.
  pose proof (lookup_Some_truthy _ _ _ Ht) as Hn.
  pose proof (create_question_typed nq s t a dif c Ht Ha Hd Hcat) as E.
  destruct (is_empty (List.filter _ (questions s)));
    [destruct (binds_text t); [destruct (accepts_row t a c dif)|]|].
  - apply post_questions_on_inserted; assumption.
  - rewrite post_questions_on_create by assumption.
    unfold bind at 1. rewrite E. reflexivity.
  - rewrite post_questions_on_create by assumption.
    unfold bind at 1. rewrite E. reflexivity.
  - rewrite post_questions_on_create by assumption.
    unfold bind at 1. rewrite E. reflexivity.
Qed.

End CreateTyped.

Lemma filter_text_last (t a : string) (c dif i : Z) (l : list Question) :
  is_empty (List.filter (fun r => String.eqb t (q_question r))
                        (l ++ [mkQuestion i t a c dif])) = false.
Proof.
  apply (filter_text_nonempty t _ (mkQuestion i t a c dif));
    [|reflexivity].
  apply in_or_app. right. left. reflexivity.
Qed.

(** X14. A create request whose question has a text and an answer that are
    strings, a difficulty and a category that are integers, and a text that
    no question of the store has, is answered according to the store.  When
    the driver cannot send the text, the lookup before the insertion raises
    and the response is the internal error.  When it can and the store
    does not take the row, the insertion fails inside the [try] and the
    response is unprocessable.  In both cases the store is left as it was.
    When it can and the store takes the row, the response has status 201:
    the question is added at the end of the store with the four values of
    the request and the next identifier of the store, which is reported as
    [created], and [count] is one more than the number of questions
    before. *)
Theorem post_questions_fresh_text
  {D : Driver} (d nq : gmap string json) (s : store)
  (t a : string) (dif c : Z) :
  truthy (default JNull (d !! "category")) = false ->
  truthy (default JNull (d !! "search")) = false ->
  d !! "question" = Some (JObj nq) ->
  nq !! "question" = Some (JStr t) -> nq !! "answer" = Some (JStr a) ->
  nq !! "difficulty" = Some (JInt dif) -> nq !! "category" = Some (JInt c) ->
  (forall q, In q (questions s) -> q_question q <> t) ->
  let row := mkQuestion (next_id s) t a c dif in
  let r := fst (serve (post_questions (JObj d)) s) in
  let s' := snd (serve (post_questions (JObj d)) s) in
  (binds_text t = false -> r = fatal_error /\ s' = s)
  /\ (binds_text t = true -> accepts_row t a c dif = false ->
      r = not_processable /\ s' = s)
  /\ (binds_text t = true -> accepts_row t a c dif = true ->
      status r = 201
      /\ field "success" (body r) = Some (JBool true)
      /\ field "created" (body r) = Some (JInt (next_id s))
      /\ field "count" (body r)
         = Some (JInt (Z.of_nat (length (questions s)) + 1))
      /\ field "questions" (body r)
         = Some (JList (map Question_format (questions s ++ [row])))
      /\ questions s' = (questions s ++ [row])%list
      /\ categories s' = categories s).
Proof.
  intros Hc Hs Hq Ht Ha Hd Hcat Hfresh. unfold serve.
  rewrite (post_questions_typed d nq s t a dif c) by assumption.
  rewrite filter_text_empty by exact Hfresh. cbn [is_empty].
  split; [|split].
  - intros ->. split; reflexivity.
  - intros -> ->. split; reflexivity.
  - intros -> ->. simpl. repeat split.
    unfold created_body, obj. cbn [field].
    rewrite length_map, length_app. simpl length.
    replace (Z.of_nat (length (questions s) + 1))
      with (Z.of_nat (length (questions s)) + 1) by lia.
    reflexivity.
Qed.

Lemma post_questions_fresh_text_witness :
  status (fst (serve (@post_questions refusing_driver
                        (obj [("question",
                               obj [("question", JStr "new question");
                                    ("answer", JStr "answer");
                                    ("category", JInt 1);
                                    ("difficulty", JInt 1)])]))
                     sample_store)) = 201
  /\ fst (serve (@post_questions refusing_driver
                   (obj [("question",
                          obj [("question", JStr "new question");
                               ("answer", JStr "answer");
                               ("category", JInt 1);
                               ("difficulty", JInt 2147483648)])]))
                sample_store) = not_processable.
Proof.
  assert (H : forall q, In q (questions sample_store) ->
                        q_question q <> "new question").
  { intros q Hin. vm_compute in Hin.
    repeat (destruct Hin as [<-|Hin]; [discriminate|]). contradiction. }
  split.
  - pose (nq := list_to_map [("question", JStr "new question");
                             ("answer", JStr "answer");
                             ("category", JInt 1);
                             ("difficulty", JInt 1)]
                : gmap string json).
    pose (d := list_to_map [("question", JObj nq)] : gmap string json).
    apply (proj2 (proj2 (@post_questions_fresh_text refusing_driver d nq
                           sample_store "new question" "answer" 1 1
                           ltac:(vm_compute; reflexivity)
                           ltac:(vm_compute; reflexivity)
                           ltac:(vm_compute; reflexivity)
                           ltac:(vm_compute; reflexivity)
                           ltac:(vm_compute; reflexivity)
                           ltac:(vm_compute; reflexivity)
                           ltac:(vm_compute; reflexivity) H)));
      vm_compute; reflexivity.
  - pose (nq := list_to_map [("question", JStr "new question");
                             ("answer", JStr "answer");
                             ("category", JInt 1);
                             ("difficulty", JInt 2147483648)]
                : gmap string json).
    pose (d := list_to_map [("question", JObj nq)] : gmap string json).
    apply (proj1 (proj2 (@post_questions_fresh_text refusing_driver d nq
                           sample_store "new question" "answer"
                           2147483648 1
                           ltac:(vm_compute; reflexivity)
                           ltac:(vm_compute; reflexivity)
                           ltac:(vm_compute; reflexivity)
                           ltac:(vm_compute; reflexivity)
                           ltac:(vm_compute; reflexivity)
                           ltac:(vm_compute; reflexivity)
                           ltac:(vm_compute; reflexivity) H)));
      vm_compute; reflexivity.
Defined.

Example post_questions_nul_text :
  serve (@post_questions refusing_driver
           (obj [("question",
                  obj [("question", JStr (String Ascii.zero "?"));
                       ("answer", JStr "answer");
                       ("category", JInt 1);
                       ("difficulty", JInt 1)])]))
        sample_store
  = (fatal_error, sample_store).
Proof. vm_compute. reflexivity. Qed.

(** X15. When a create request whose question has a text and an answer that
    are strings, a difficulty and a category that are integers, has been
    answered with status 201 or 409, the same request on the store it
    leaves is answered with the conflict envelope and changes nothing.
    When it has been answered otherwise (the store did not take the row,
    or the text could not be sent), nothing was inserted and the same
    request gets the same response again. *)
Theorem post_questions_twice
  {D : Driver} (d nq : gmap string json) (s : store)
  (t a : string) (dif c : Z) :
  truthy (default JNull (d !! "category")) = false ->
  truthy (default JNull (d !! "search")) = false ->
  d !! "question" = Some (JObj nq) ->
  nq !! "question" = Some (JStr t) -> nq !! "answer" = Some (JStr a) ->
  nq !! "difficulty" = Some (JInt dif) -> nq !! "category" = Some (JInt c) ->
  let r1 := fst (serve (post_questions (JObj d)) s) in
  let s1 := snd (serve (post_questions (JObj d)) s) in
  (status r1 = 201 \/ status r1 = 409 ->
   serve (post_questions (JObj d)) s1 = (resource_already_exists, s1))
  /\ (status r1 <> 201 -> status r1 <> 409 ->
      s1 = s /\ serve (post_questions (JObj d)) s1 = (r1, s1)).
Proof.
  intros Hc Hs Hq Ht Ha Hd Hcat r1 s1. subst r1 s1. unfold serve.
  rewrite (post_questions_typed d nq s t a dif c) by assumption.
  destruct (is_empty (List.filter _ (questions s))) eqn:E;
    [destruct (binds_text t) eqn:Eb;
     [destruct (accepts_row t a c dif) eqn:Ea|]|]; simpl.
  - split; [|intros H; contradiction H; reflexivity]. intros _.
    rewrite (post_questions_typed d nq _ t a dif c) by assumption.
    cbn [questions with_row]. rewrite filter_text_last. reflexivity.
  - split; [intros [H|H]; discriminate H|]. intros _ _.
    split; [reflexivity|].
    rewrite (post_questions_typed d nq s t a dif c) by assumption.
    rewrite E, Eb, Ea. reflexivity.
  - split; [intros [H|H]; discriminate H|]. intros _ _.
    split; [reflexivity|].
    rewrite (post_questions_typed d nq s t a dif c) by assumption.
    rewrite E, Eb. reflexivity.
  - split; [|intros _ H; contradiction H; reflexivity]. intros _.
    rewrite (post_questions_typed d nq s t a dif c) by assumption.
    rewrite E. reflexivity.
Qed.

Lemma post_questions_twice_witness :
  let request :=
    obj [("question",
          obj [("question", JStr "new question"); ("answer", JStr "answer");
               ("category", JInt 1); ("difficulty", JInt 1)])] in
  let s1 := snd (serve (@post_questions refusing_driver request)
                       sample_store) in
  serve (@post_questions refusing_driver request) s1
  = (resource_already_exists, s1).
Proof.
  pose (nq := list_to_map [("question", JStr "new question");
                           ("answer", JStr "answer");
                           ("category", JInt 1);
                           ("difficulty", JInt 1)]
              : gmap string json).
  pose (d := list_to_map [("question", JObj nq)] : gmap string json).
  apply (proj1 (@post_questions_twice refusing_driver d nq
                  sample_store "new question" "answer" 1 1
                  ltac:(vm_compute; reflexivity)
                  ltac:(vm_compute; reflexivity)
                  ltac:(vm_compute; reflexivity)
                  ltac:(vm_compute; reflexivity)
                  ltac:(vm_compute; reflexivity)
                  ltac:(vm_compute; reflexivity)
                  ltac:(vm_compute; reflexivity))).
  left. vm_compute. reflexivity.
Defined.

(** X16. Such a create request keeps the texts of the questions of the
    store pairwise distinct: the lookup before the insertion turns a text
    that is there already into a conflict. *)
Theorem post_questions_unique_texts
  {D : Driver} (d nq : gmap string json) (s : store)
  (t a : string) (dif c : Z) :
  truthy (default JNull (d !! "category")) = false ->
  truthy (default JNull (d !! "search")) = false ->
  d !! "question" = Some (JObj nq) ->
  nq !! "question" = Some (JStr t) -> nq !! "answer" = Some (JStr a) ->
  nq !! "difficulty" = Some (JInt dif) -> nq !! "category" = Some (JInt c) ->
  unique_texts s ->
  unique_texts (snd (serve (post_questions (JObj d)) s)).
Proof.
  intros Hc Hs Hq Ht Ha Hd Hcat Hu. unfold serve.
  rewrite (post_questions_typed d nq s t a dif c) by assumption.
  destruct (List.filter _ (questions s)) as [|x r] eqn:E; simpl;
    [|exact Hu].
  destruct (binds_text t); [|exact Hu].
  destruct (accepts_row t a c dif); [|exact Hu].
  unfold unique_texts. cbn [questions with_row snd].
  rewrite map_app. simpl map.
  apply List.NoDup_app; [exact Hu| |].
  - repeat constructor. intros [].
  - intros y Hy [<-|[]].
    apply in_map_iff in Hy. destruct Hy as [q [Hq' Hin]].
    assert (H : In q (List.filter (fun r => String.eqb t (q_question r))
                                  (questions s))).
    { apply filter_In. split; [exact Hin|]. apply String.eqb_eq.
      congruence. }
    rewrite E in H. contradiction.
Qed.

Lemma post_questions_unique_texts_witness :
  unique_texts
    (snd (serve (@post_questions refusing_driver
                   (obj [("question",
                          obj [("question", JStr "new question");
                               ("answer", JStr "answer");
                               ("category", JInt 1);
                               ("difficulty", JInt 1)])]))
                sample_store)).
Proof.
  apply (@post_questions_unique_texts refusing_driver _
           (list_to_map [("question", JStr "new question");
                         ("answer", JStr "answer");
                         ("category", JInt 1);
                         ("difficulty", JInt 1)])
           sample_store "new question" "answer" 1 1);
    try (vm_compute; reflexivity).
  unfold unique_texts. vm_compute.
  repeat (constructor; [simpl; intros H; 
    repeat (destruct H as [H|H]; [discriminate H|]); contradiction|]).
  constructor.
Defined.

(** ** The search arm of POST /questions *)








(** ** More on POST /quizzes *)

Section QuizzesMore.

Context {D : Driver}.

Lemma quiz_select_falsy (cid : json) (s : store) :
  truthy cid = false ->
  quiz_select cid s = (Ret (Rows (questions s), JStr ""), s).
Proof. intros H. unfold quiz_select. rewrite H. reflexivity. Qed.

Lemma quiz_select_int (z : Z) (s : store) :
  z <> 0 ->
  quiz_select (JInt z) s =
  match find (fun c => z =? c_id c) (categories s) with
  | Some c => (Ret (filter_by_category (JInt z), Category_format c), s)
  | None => (Raise AttributeError, s)
  end.
Proof.
  intros Hz. unfold quiz_select.
  assert (Ht : truthy (JInt z) = true)
    by (simpl; apply negb_true_iff, Z.eqb_neq; exact Hz).
  rewrite Ht. cbn [negb py_eq_str orb].
  unfold bind, Category_query_get_json, bind_key, result_map, attr.
  destruct (find _ (categories s)); reflexivity.
Qed.

(** What is read after the selection, for previous questions that are
    missing. *)
Lemma get_quizzes_no_previous (seed : nat) (d quiz : gmap string json)
  (cid : json) (s : store) (sel : selection) (cat : json) :
  d !! "quiz" = Some (JObj quiz) ->
  quiz !! "category_id" = Some cid ->
  quiz !! "previous_questions" = None ->
  quiz_select cid s = (Ret (sel, cat), s) ->
  get_quizzes seed (JObj d) s = (Raise KeyError, s).
Proof.
  intros Hq Hc Hp Hsel.
  rewrite (get_quizzes_obj seed d quiz cid s Hq Hc).
  unfold bind at 1. rewrite Hsel.
  unfold bind at 1. unfold lift at 1, subscript. rewrite Hp. reflexivity.
Qed.

(** The general form of the response once the selection is made and the
    previous questions are read. *)
Lemma get_quizzes_selected (seed : nat) (d quiz : gmap string json)
  (cid prev : json) (s : store)
  (sel : selection) (cat : json) (rows : list Question) :
  d !! "quiz" = Some (JObj quiz) ->
  quiz !! "category_id" = Some cid ->
  quiz !! "previous_questions" = Some prev ->
  quiz_select cid s = (Ret (sel, cat), s) ->
  iterate sel s = (Ret rows, s) ->
  get_quizzes seed (JObj d) s =
  (match not_previous prev (firstn 5 rows) with
   | Ret kept =>
       Ret (200, quiz_body (quiz_question seed (map Question_format kept))
                           prev cat)
   | Abort e => Abort e
   | Raise x => Raise x
   end, s).
Proof.
  intros Hq Hc Hp Hsel Hrows.
  rewrite (get_quizzes_obj seed d quiz cid s Hq Hc).
  unfold bind at 1. rewrite Hsel.
  unfold bind at 1. unfold lift at 1, subscript. rewrite Hp.
  unfold bind at 1. unfold first_five, bind at 1. rewrite Hrows.
  unfold ret at 1. unfold bind, lift.
  destruct (not_previous prev (firstn 5 rows)); reflexivity.
Qed.

End QuizzesMore.

Lemma not_previous_scalar (prev : json) (q : Question)
  (rows : list Question) :
  scalar prev -> not_previous prev (q :: rows) = Raise TypeError.
Proof. destruct prev; simpl; intros H; try contradiction; reflexivity. Qed.

Lemma not_previous_dict (m : gmap string json) (rows : list Question) :
  not_previous (JObj m) rows = Ret rows.
Proof.
  unfold not_previous. simpl.
  rewrite (filterM_Ret (fun _ => true)).
  induction rows as [|x t IH]; simpl; [reflexivity|].
  injection IH as IH. rewrite IH. reflexivity.
Qed.

(** X18. A quiz whose [category_id] is false in a boolean context, the
    string "0" or an integer, and which has no [previous_questions], is
    answered with the internal error: the key is read outside any [try],
    unlike [category_id], whose absence is unprocessable. *)
Theorem get_quizzes_missing_previous
  {D : Driver} (seed : nat) (d quiz : gmap string json) (cid : json)
  (s : store) :
  d !! "quiz" = Some (JObj quiz) ->
  quiz !! "category_id" = Some cid ->
  quiz !! "previous_questions" = None ->
  truthy cid = false \/ cid = JStr "0" \/ (exists z, cid = JInt z) ->
  serve (get_quizzes seed (JObj d)) s = (fatal_error, s).
Proof.
  intros Hq Hc Hp Hcid. unfold serve.
  assert (Hall : forall sel cat, quiz_select cid s = (Ret (sel, cat), s) ->
                 (let (r, s') := get_quizzes seed (JObj d) s in
                  (respond r, s')) = (fatal_error, s)).
  { intros sel cat Hsel.
    rewrite (get_quizzes_no_previous seed d quiz cid s sel cat)
      by assumption. reflexivity. }
  destruct Hcid as [Hf|[->|[z ->]]].
  - eapply Hall. apply quiz_select_falsy. exact Hf.
  - eapply Hall. apply quiz_select_all. right. reflexivity.
  - destruct (Z.eq_dec z 0) as [->|Hz].
    + eapply Hall. apply quiz_select_all. left. reflexivity.
    + pose proof (quiz_select_int z s Hz) as E.
      destruct (find _ (categories s)) as [c|].
      * eapply Hall. exact E.
      * rewrite (get_quizzes_obj seed d quiz (JInt z) s Hq Hc).
        unfold bind at 1. rewrite E. reflexivity.
Qed.

Lemma get_quizzes_missing_previous_witness :
  serve (@get_quizzes refusing_driver 0
           (obj [("quiz", obj [("category_id", JInt 1)])])) sample_store
  = (fatal_error, sample_store).
Proof.
  pose (quiz := list_to_map [("category_id", JInt 1)] : gmap string json).
  pose (d := list_to_map [("quiz", JObj quiz)] : gmap string json).
  assert (Hq : d !! "quiz" = Some (JObj quiz)) by (vm_compute; reflexivity).
  assert (Hc : quiz !! "category_id" = Some (JInt 1))
    by (vm_compute; reflexivity).
  assert (Hp : quiz !! "previous_questions" = None)
    by (vm_compute; reflexivity).
  apply (@get_quizzes_missing_previous refusing_driver 0 d quiz (JInt 1)
           sample_store Hq Hc Hp).
  right. right. exists 1. reflexivity.
Defined.

(** X19. When [previous_questions] is not a list: a dictionary excludes no
    question, its keys being strings; [null], a boolean, a number or a
    string cannot be searched for an identifier, which is the internal
    error as soon as the first five rows of the selected set hold a
    question, and goes unnoticed, with a null question and a success, when
    they hold none. *)
Theorem get_quizzes_previous_not_a_list
  {D : Driver} (seed : nat) (d quiz : gmap string json)
  (cid prev : json) (s : store)
  (sel : selection) (cat : json) (rows : list Question) :
  d !! "quiz" = Some (JObj quiz) ->
  quiz !! "category_id" = Some cid ->
  quiz !! "previous_questions" = Some prev ->
  quiz_select cid s = (Ret (sel, cat), s) ->
  iterate sel s = (Ret rows, s) ->
  let out := serve (get_quizzes seed (JObj d)) s in
  ((exists m, prev = JObj m) ->
   out = (mkResponse 200
            (quiz_body (quiz_question seed
                          (map Question_format (firstn 5 rows)))
                       prev cat), s))
  /\ (scalar prev -> rows <> [] -> out = (fatal_error, s))
  /\ (scalar prev -> rows = [] ->
      out = (mkResponse 200 (quiz_body JNull prev cat), s)).
Proof.
  intros Hq Hc Hp Hsel Hrows out. subst out. unfold serve.
  rewrite (get_quizzes_selected seed d quiz cid prev s sel cat rows)
    by assumption.
  split; [|split].
  - intros [m ->]. rewrite not_previous_dict. reflexivity.
  - intros Hs Hne. destruct rows as [|q t]; [contradiction|].
    cbn [firstn]. rewrite not_previous_scalar by exact Hs. reflexivity.
  - intros Hs ->. reflexivity.
Qed.

Lemma get_quizzes_previous_not_a_list_witness :
  serve (@get_quizzes refusing_driver 0
           (obj [("quiz", obj [("category_id", JInt 0);
                               ("previous_questions", JStr "2, 4")])]))
        sample_store
  = (fatal_error, sample_store).
Proof.
  pose (quiz := list_to_map [("category_id", JInt 0);
                             ("previous_questions", JStr "2, 4")]
                : gmap string json).
  pose (d := list_to_map [("quiz", JObj quiz)] : gmap string json).
  assert (Hq : d !! "quiz" = Some (JObj quiz)) by (vm_compute; reflexivity).
  assert (Hc : quiz !! "category_id" = Some (JInt 0))
    by (vm_compute; reflexivity).
  assert (Hp : quiz !! "previous_questions" = Some (JStr "2, 4"))
    by (vm_compute; reflexivity).
  apply (proj1 (proj2 (@get_quizzes_previous_not_a_list refusing_driver 0
                         d quiz (JInt 0) (JStr "2, 4") sample_store
                         (Rows (questions sample_store)) (JStr "")
                         (questions sample_store) Hq Hc Hp
                         eq_refl eq_refl)));
    [exact I|discriminate].
Defined.

(** X20. For a [category_id] that is an integer other than 0 and the
    identifier of a category of the store, and a list of previous
    questions, the response is a success that reports this category,
    formatted, as [current_category], and whose question, when it is not
    null, has that [category]. *)
Theorem get_quizzes_of_category
  {D : Driver} (seed : nat) (d quiz : gmap string json)
  (z : Z) (prev : list json) (s : store) (c : Category) :
  d !! "quiz" = Some (JObj quiz) ->
  quiz !! "category_id" = Some (JInt z) ->
  quiz !! "previous_questions" = Some (JList prev) ->
  z <> 0 ->
  Category_query_get_json (JInt z) s = (Ret (Some c), s) ->
  let r := fst (serve (get_quizzes seed (JObj d)) s) in
  status r = 200
  /\ field "current_category" (body r) = Some (Category_format c)
  /\ c_id c = z
  /\ exists question,
       field "question" (body r) = Some question
       /\ (question <> JNull ->
           field "category" question = Some (JInt z)).
Proof.
  intros Hq Hc Hp Hz Hget r. subst r.
  assert (Hfind : find (fun x => z =? c_id x) (categories s) = Some c).
  { unfold Category_query_get_json, bind_key, result_map in Hget.
    injection Hget as Hget. exact Hget. }
  pose proof (quiz_select_int z s Hz) as Hsel. rewrite Hfind in Hsel.
  unfold serve.
  rewrite (get_quizzes_list seed d quiz (JInt z) prev s
             (filter_by_category (JInt z)) (Category_format c)
             (in_category z (questions s)) Hq Hc Hp Hsel eq_refl).
  cbn [fst respond status body].
  split; [reflexivity|]. split; [reflexivity|]. split.
  - apply find_some in Hfind. destruct Hfind as [_ E].
    apply Z.eqb_eq in E. congruence.
  - set (kept := List.filter (not_in_list prev)
                             (firstn 5 (in_category z (questions s)))).
    exists (quiz_question seed (map Question_format kept)).
    split; [reflexivity|]. intros Hnn.
    destruct kept as [|k t] eqn:Hk; [contradiction Hnn; reflexivity|].
    assert (Hin : In (quiz_question seed (map Question_format (k :: t)))
                     (map Question_format (k :: t)))
      by (apply quiz_question_In; discriminate).
    apply in_map_iff in Hin. destruct Hin as [q [<- Hqin]].
    rewrite <- Hk in Hqin. unfold kept in Hqin.
    apply filter_In in Hqin. destruct Hqin as [Hw _].
    apply In_firstn in Hw. unfold in_category in Hw.
    apply filter_In in Hw. destruct Hw as [_ E].
    apply Z.eqb_eq in E. rewrite E. reflexivity.
Qed.

Lemma get_quizzes_of_category_witness :
  field "current_category"
        (body (fst (serve (@get_quizzes refusing_driver 7
                             (obj [("quiz",
                                    obj [("category_id", JInt 1);
                                         ("previous_questions",
                                          JList [JInt 2])])]))
                          sample_store)))
  = Some (Category_format (mkCategory 1 "Science")).
Proof.
  pose (quiz := list_to_map [("category_id", JInt 1);
                             ("previous_questions", JList [JInt 2])]
                : gmap string json).
  pose (d := list_to_map [("quiz", JObj quiz)] : gmap string json).
  assert (Hq : d !! "quiz" = Some (JObj quiz)) by (vm_compute; reflexivity).
  assert (Hc : quiz !! "category_id" = Some (JInt 1))
    by (vm_compute; reflexivity).
  assert (Hp : quiz !! "previous_questions" = Some (JList [JInt 2]))
    by (vm_compute; reflexivity).
  apply (@get_quizzes_of_category refusing_driver 7 d quiz 1 [JInt 2]
           sample_store (mkCategory 1 "Science") Hq Hc Hp
           ltac:(lia) eq_refl).
Defined.

Lemma quiz_question_nth (n : nat) (l : list json) :
  (n < length l)%nat -> quiz_question n l = nth n l JNull.
Proof.
  intros H. unfold quiz_question, py_index, randint.
  destruct l as [|x t]; [simpl in H; lia|]. cbn [is_empty negb].
  f_equal. rewrite Z.mod_small by lia. lia.
Qed.

(** X21. Every question of the first five rows of the selected set that is
    not in the list of previous questions can be the question of the
    response: it is, for some state of the random generator. *)
Theorem get_quizzes_any_eligible
  {D : Driver} (d quiz : gmap string json)
  (cid : json) (prev : list json) (s : store)
  (sel : selection) (cat : json) (rows : list Question) (q : Question) :
  d !! "quiz" = Some (JObj quiz) ->
  quiz !! "category_id" = Some cid ->
  quiz !! "previous_questions" = Some (JList prev) ->
  quiz_select cid s = (Ret (sel, cat), s) ->
  iterate sel s = (Ret rows, s) ->
  In q (firstn 5 rows) ->
  py_in (q_id q) (JList prev) = Ret false ->
  exists seed,
    field "question" (body (fst (serve (get_quizzes seed (JObj d)) s)))
    = Some (Question_format q).
Proof.
  intros Hq Hc Hp Hsel Hrows Hin Hnot.
  set (kept := List.filter (not_in_list prev) (firstn 5 rows)).
  assert (Hk : In (Question_format q) (map Question_format kept)).
  { apply in_map. apply filter_In. split; [exact Hin|].
    unfold not_in_list. simpl in Hnot. injection Hnot as ->. reflexivity. }
  destruct (In_nth _ _ JNull Hk) as [n [Hn Hnth]].
  exists n. unfold serve.
  rewrite (get_quizzes_list n d quiz cid prev s sel cat rows)
    by assumption.
  cbn [fst respond body]. fold kept.
  rewrite quiz_question_nth by exact Hn. rewrite Hnth. reflexivity.
Qed.

Lemma get_quizzes_any_eligible_witness :
  exists seed,
    field "question"
          (body (fst (serve (@get_quizzes refusing_driver seed
                               (obj [("quiz",
                                      obj [("category_id", JInt 0);
                                           ("previous_questions",
                                            JList [JInt 2])])]))
                            sample_store)))
    = Some (Question_format (sample_question 9 2)).
Proof.
  pose (quiz := list_to_map [("category_id", JInt 0);
                             ("previous_questions", JList [JInt 2])]
                : gmap string json).
  pose (d := list_to_map [("quiz", JObj quiz)] : gmap string json).
  assert (Hq : d !! "quiz" = Some (JObj quiz)) by (vm_compute; reflexivity).
  assert (Hc : quiz !! "category_id" = Some (JInt 0))
    by (vm_compute; reflexivity).
  assert (Hp : quiz !! "previous_questions" = Some (JList [JInt 2]))
    by (vm_compute; reflexivity).
  apply (@get_quizzes_any_eligible refusing_driver d quiz (JInt 0)
           [JInt 2] sample_store (Rows (questions sample_store)) (JStr "")
           (questions sample_store) (sample_question 9 2) Hq Hc Hp
           eq_refl eq_refl).
  - vm_compute. tauto.
  - reflexivity.
Defined.

(** X22. Every [category_id] that is false in a boolean context ([null],
    [false], 0, the empty string, an empty list or object) selects from all
    the questions, as 0 does: with a list of previous questions the
    response is a success with the empty string as [current_category] and a
    question drawn from the first five questions of the store. *)
Theorem get_quizzes_falsy_category_id
  {D : Driver} (seed : nat) (d quiz : gmap string json)
  (cid : json) (prev : list json) (s : store) :
  d !! "quiz" = Some (JObj quiz) ->
  quiz !! "category_id" = Some cid ->
  quiz !! "previous_questions" = Some (JList prev) ->
  truthy cid = false ->
  serve (get_quizzes seed (JObj d)) s =
  (mkResponse 200
     (quiz_body
        (quiz_question seed
           (map Question_format
                (List.filter (not_in_list prev) (firstn 5 (questions s)))))
        (JList prev) (JStr "")), s).
Proof.
  intros Hq Hc Hp Hf. unfold serve.
  rewrite (get_quizzes_list seed d quiz cid prev s
             (Rows (questions s)) (JStr "") (questions s));
    try assumption; try reflexivity.
  apply quiz_select_falsy. exact Hf.
Qed.

Lemma get_quizzes_falsy_category_id_witness :
  serve (@get_quizzes refusing_driver 0
           (obj [("quiz", obj [("category_id", JNull);
                               ("previous_questions", JList [])])]))
        sample_store
  = (mkResponse 200
       (quiz_body (Question_format (sample_question 2 1))
                  (JList []) (JStr "")), sample_store).
Proof.
  pose (quiz := list_to_map [("category_id", JNull);
                             ("previous_questions", JList [])]
                : gmap string json).
  pose (d := list_to_map [("quiz", JObj quiz)] : gmap string json).
  assert (Hq : d !! "quiz" = Some (JObj quiz)) by (vm_compute; reflexivity).
  assert (Hc : quiz !! "category_id" = Some JNull)
    by (vm_compute; reflexivity).
  assert (Hp : quiz !! "previous_questions" = Some (JList []))
    by (vm_compute; reflexivity).
  apply (@get_quizzes_falsy_category_id refusing_driver 0 d quiz JNull []
           sample_store Hq Hc Hp eq_refl).
Defined.

(** ** The envelope of the responses *)

Lemma returns_success_bind {A} (m : M A) (k : A -> M (Z * json)) :
  (forall a, returns_success (k a)) -> returns_success (bind m k).
Proof.
  intros Hk s code b s'. unfold bind.
  destruct (m s) as [[a|e|x] s1]; [apply Hk|discriminate..].
Qed.

Lemma returns_success_abort (e : http_error) : returns_success (abort e).
Proof. intros s code b s' H. discriminate H. Qed.

Lemma returns_success_ret_200 (l : list (string * json)) :
  returns_success (ret (200, obj (("success", JBool true) :: l))).
Proof.
  intros s code b s' H. injection H as <- <- _.
  split; [left; reflexivity|]. unfold obj. cbn [field list_to_map foldr].
  apply lookup_insert_eq.
Qed.

Lemma returns_success_ret_201 (l : list (string * json)) :
  returns_success (ret (201, obj (("success", JBool true) :: l))).
Proof.
  intros s code b s' H. injection H as <- <- _.
  split; [right; reflexivity|]. unfold obj. cbn [field list_to_map foldr].
  apply lookup_insert_eq.
Qed.

Lemma envelope_respond (m : M (Z * json)) (s : store) :
  returns_success m -> envelope (fst (serve m s)).
Proof.
  intros H. unfold serve. specialize (H s).
  destruct (m s) as [[[code b]|e|x] s'].
  - left. exact (H code b s' eq_refl).
  - right. destruct e; simpl; repeat split; auto.
  - right. simpl. repeat split; auto.
Qed.

Ltac returns_success_step :=
  first [ apply returns_success_bind; intros ?
        | apply returns_success_abort
        | apply returns_success_ret_200
        | apply returns_success_ret_201
        | match goal with
          | |- returns_success (let '(_, _) := ?p in _) => destruct p
          | |- returns_success (match ?x with _ => _ end) => destruct x
          end ].

(** X23. Every response that a handler produces has the same shape: its
    status is 200 or 201 and its [success] is true, or its status is 404,
    409, 422 or 500, its [success] is false and its [error] repeats the
    status.  This holds of the four routes that read no body for every
    request, and of POST /questions and POST /quizzes for every request
    whose body is decoded by [request.get_json()], whatever JSON value it
    is.  In particular DELETE /questions/<id> answers 200 or 404, never
    204. *)
Theorem responses_enveloped {D : Driver} (s : store) :
  (forall page_arg, envelope (fst (serve (get_questions page_arg) s)))
  /\ envelope (fst (serve get_categories s))
  /\ (forall category_id,
        envelope (fst (serve (get_question_by_category_id category_id) s)))
  /\ (forall id,
        envelope (fst (serve (delete_question id) s))
        /\ (status (fst (serve (delete_question id) s)) = 200
            \/ status (fst (serve (delete_question id) s)) = 404))
  /\ (forall body_, envelope (fst (serve (post_questions body_) s)))
  /\ (forall seed body_, envelope (fst (serve (get_quizzes seed body_) s))).
Proof.
  split; [|split; [|split; [|split; [|split]]]].
  - intros page_arg. apply envelope_respond.
    unfold get_questions. repeat returns_success_step.
  - apply envelope_respond.
    unfold get_categories. repeat returns_success_step.
  - intros category_id. apply envelope_respond.
    unfold get_question_by_category_id. repeat returns_success_step.
  - intros id. split.
    + apply envelope_respond.
      unfold delete_question. repeat returns_success_step.
    + unfold serve. rewrite delete_question_unfold.
      destruct (find _ (questions s)); simpl; [|right; reflexivity].
      destruct (is_empty _); simpl; [right|left]; reflexivity.
  - intros body_. apply envelope_respond.
    unfold post_questions, post_questions_on. repeat returns_success_step.
  - intros seed body_. apply envelope_respond.
    unfold get_quizzes, quiz_body. repeat returns_success_step.
Qed.

(** X24. With no [category] and no [search] that is true in a boolean
    context, POST /questions is unprocessable, and leaves the store as it
    was, for every [question] member that is not an object with the four
    sub-fields: a missing or null one, a string, a number, a list, an
    object that lacks a sub-field. *)
Theorem post_questions_unprocessable
  {D : Driver} (d : gmap string json) (s : store) :
  truthy (default JNull (d !! "category")) = false ->
  truthy (default JNull (d !! "search")) = false ->
  (forall nq, d !! "question" = Some (JObj nq) ->
     nq !! "question" = None \/ nq !! "answer" = None
     \/ nq !! "difficulty" = None \/ nq !! "category" = None) ->
  serve (post_questions (JObj d)) s = (not_processable, s).
Proof.
  intros Hc Hs Hq. rewrite post_questions_obj. unfold serve.
  destruct (truthy (default JNull (d !! "question"))) eqn:Hn.
  - rewrite post_questions_on_create by assumption. unfold bind at 1.
    assert (E : exists x, read_new_question (default JNull (d !! "question"))
                          = Raise x).
    { destruct (d !! "question") as [v|]; [|exists TypeError; reflexivity].
      destruct v as [| | | | |nq];
        try (exists TypeError; reflexivity).
      exists KeyError. apply read_new_question_missing.
      apply Hq. reflexivity. }
    destruct E as [x E].
    rewrite (create_question_unreadable _ x) by exact E. reflexivity.
  - unfold post_questions_on, post_branch. rewrite Hc, Hs, Hn. reflexivity.
Qed.

Lemma post_questions_unprocessable_witness :
  serve (@post_questions refusing_driver
           (obj [("question", JStr "What is the capital of France?")]))
        sample_store
  = (not_processable, sample_store).
Proof.
  pose (d := list_to_map
               [("question", JStr "What is the capital of France?")]
             : gmap string json).
  apply (@post_questions_unprocessable refusing_driver d sample_store).
  - vm_compute. reflexivity.
  - vm_compute. reflexivity.
  - intros nq H. vm_compute in H. discriminate H.
Defined.
